(** * ts-morph: implements-clause manipulation and the get-accessor printer

    A shallow embedding of

    - [src/compiler/base/ImplementsClauseableNode.ts]
      (the mixin with [getImplements], [addImplements], [insertImplements]
      and [removeImplements]), and
    - [src/structurePrinters/class/GetAccessorDeclarationStructurePrinter.ts]
      (the [printText] template).

    The mixin works on a mutable wrapped node: its methods read the parsed
    heritage clauses and the source text, and change both through the
    helpers of the [manipulation] module.  The embedding threads the node
    explicitly through a state-and-exception monad. *)

From Stdlib Require Import String Ascii List ZArith Bool Arith Lia.
Import ListNotations.

Local Open Scope string_scope.
Local Open Scope list_scope.
Local Open Scope nat_scope.

(* ================================================================== *)
(** ** Characters and strings *)

Module Text.

(** Characters are the code units of the source text (restricted to the
    8-bit range).  The JavaScript class [\s] contains, in that range,
    TAB, LF, VT, FF, CR, SPACE and NO-BREAK SPACE. *)
Definition isWhitespaceChar (c : ascii) : bool :=
  existsb (N.eqb (N_of_ascii c)) [9; 10; 11; 12; 13; 32; 160]%N.

Fixpoint isWhitespaceOnly (s : string) : bool :=
  match s with
  | EmptyString => true
  | String c rest => isWhitespaceChar c && isWhitespaceOnly rest
  end.

(** [text[i]] for a JavaScript number [i]: [undefined] ([None]) outside
    the string. *)
Definition charAt (text : string) (i : Z) : option ascii :=
  if (i <? 0)%Z then None else String.get (Z.to_nat i) text.

(** [/\s/.test(x)]: an [undefined] argument is converted to the string
    ["undefined"], which has no whitespace. *)
Definition testWhitespace (x : option ascii) : bool :=
  match x with
  | Some c => isWhitespaceChar c
  | None => false
  end.

(** [texts.join(sep)] *)
Definition join (sep : string) (texts : list string) : string :=
  String.concat sep texts.

(** The text with [inserted] placed at offset [pos]. *)
Definition insertAt (pos : nat) (inserted text : string) : string :=
  (substring 0 pos text ++ inserted
     ++ substring pos (String.length text - pos) text)%string.

End Text.

(* ================================================================== *)
(** ** The syntax tree of a class-like node *)

Module Tree.

Inductive SyntaxKind : Type :=
| ExtendsKeyword
| ImplementsKeyword.

Definition isImplementsKeyword (k : SyntaxKind) : bool :=
  match k with
  | ImplementsKeyword => true
  | ExtendsKeyword => false
  end.

(** A wrapped type node of a heritage clause.  [nodeId] stands for the
    identity of the JavaScript object ([===] compares identities). *)
Record ExpressionWithTypeArguments : Type := {
  nodeId : nat;
  nodeText : string
}.

Record HeritageClause : Type := {
  clauseId : nat;
  token : SyntaxKind;            (* compilerNode.token *)
  types : list ExpressionWithTypeArguments   (* getTypes() *)
}.

(** The nodes that are handed to [removeChildren] and to the
    [syntaxList] option. *)
Inductive NodeRef : Type :=
| HeritageSyntaxList
| HeritageClauseRef (clause : HeritageClause).

(** Every heritage clause of a class-like node is a child of the one
    syntax list that holds the node's heritage clauses. *)
Definition getParentSyntaxListOrThrow (clause : HeritageClause) : NodeRef :=
  HeritageSyntaxList.

(** [a === b] on wrapped nodes. *)
Definition sameNode (a b : ExpressionWithTypeArguments) : bool :=
  Nat.eqb (nodeId a) (nodeId b).

(** [a !== b] where either side may be [undefined]. *)
Definition strictNotEqual (a b : option ExpressionWithTypeArguments) : bool :=
  match a, b with
  | Some x, Some y => negb (sameNode x y)
  | None, None => false
  | _, _ => true
  end.

(** Fresh wrapped nodes for newly inserted type texts, numbered from
    [next]. *)
Fixpoint freshNodes (next : nat) (texts : list string)
  : list ExpressionWithTypeArguments :=
  match texts with
  | [] => []
  | t :: rest => {| nodeId := next; nodeText := t |} :: freshNodes (S next) rest
  end.

End Tree.
Import Tree.

(* ================================================================== *)
(** ** Requests to the manipulation module *)

Module Request.

Record InsertIntoCommaSeparatedNodesOptions : Type := {
  currentNodes : list ExpressionWithTypeArguments;
  insertIndex : Z;
  newTexts : list string
}.

Record InsertIntoCreatableSyntaxListOptions : Type := {
  insertPos : nat;
  newText : string;
  syntaxList : option NodeRef;
  childIndex : nat;
  insertItemsCount : nat
}.

Record RemoveChildrenOptions : Type := {
  children : list NodeRef;
  removePrecedingSpaces : bool
}.

(** A call of one of the four helpers, with its arguments ([parent] is
    always the receiver and is left out). *)
Inductive Manipulation : Type :=
| InsertIntoCommaSeparatedNodes (opts : InsertIntoCommaSeparatedNodesOptions)
| InsertIntoCreatableSyntaxList (opts : InsertIntoCreatableSyntaxListOptions)
| RemoveChildren (opts : RemoveChildrenOptions)
| RemoveCommaSeparatedChild (child : ExpressionWithTypeArguments)
                            (removeSpaces : bool).

End Request.
Import Request.

(* ================================================================== *)
(** ** The wrapped node and the monad of its methods *)

Module Node.

Inductive Error : Type :=
| InvalidOperationError (message : string)
| ArgumentNullOrWhitespaceError (argName : string)
| InvalidIndexError (index length : Z)
| ChildOfKindNotFoundError
| UndefinedNodeError.

(** The receiver [this] together with its source file.
    [manipulations] records the helper calls made so far, oldest first. *)
Record ClassNode : Type := {
  fullText : string;                     (* getSourceFile().getFullText() *)
  heritageClauses : list HeritageClause; (* getHeritageClauses() *)
  openBraceToken : option nat;           (* start of the "{" token, if any *)
  nextId : nat;
  manipulations : list Manipulation
}.

Inductive Outcome (A : Type) : Type :=
| Returned (value : A) (after : ClassNode)
| Threw (error : Error) (after : ClassNode).
Arguments Returned {A} value after.
Arguments Threw {A} error after.

Definition Action (A : Type) : Type := ClassNode -> Outcome A.

Definition ret {A} (a : A) : Action A := fun st => Returned a st.

Definition throw {A} (e : Error) : Action A := fun st => Threw e st.

Definition bind {A B} (m : Action A) (k : A -> Action B) : Action B :=
  fun st =>
    match m st with
    | Returned a st' => k a st'
    | Threw e st' => Threw e st'
    end.

Definition outcomeState {A} (o : Outcome A) : ClassNode :=
  match o with
  | Returned _ st => st
  | Threw _ st => st
  end.

Definition hasThrown {A} (o : Outcome A) : bool :=
  match o with
  | Returned _ _ => false
  | Threw _ _ => true
  end.

End Node.
Import Node.

Declare Scope action_scope.
Delimit Scope action_scope with action.
Notation "x <- m ;; k" := (bind m (fun x => k))
  (at level 61, m at next level, right associativity) : action_scope.
Notation "m ;;; k" := (bind m (fun _ => k))
  (at level 61, right associativity) : action_scope.

Local Open Scope action_scope.

(* ================================================================== *)
(** ** The helpers of the manipulation and errors modules

    Their sources are not part of the two files embedded here; each helper
    is modelled from its description. *)

Module Manipulation.

(** The text engine and the parser behind the helpers are parameters: the
    source text that results from a helper call on a node when that text is
    not fixed by the call's arguments, and the heritage clause (keyword and
    type texts) that the parser finds in a newly inserted piece of text. *)
Record Host : Type := {
  editedText : Manipulation -> ClassNode -> string;
  parseHeritageClause : string -> SyntaxKind * list string
}.

(** Modelled from the spec: [errors.throwIfNotStringOrWhitespace], the
    precondition check that rejects a string that is empty or consists
    only of whitespace. *)
Definition throwIfNotStringOrWhitespace (value argName : string) : Action unit :=
  if Text.isWhitespaceOnly value
  then throw (ArgumentNullOrWhitespaceError argName)
  else ret tt.

(** Modelled from the spec: [verifyAndGetIndex], the index validation of
    the manipulation module (not under src/).  A negative index counts from
    the end: it stands for [length + index].  The call throws when that is
    still negative and when the index is greater than [length]; otherwise
    it returns the index to use. *)
Definition verifyAndGetIndex (index length : Z) : Action Z :=
  let newIndex := if (index <? 0)%Z then (length + index)%Z else index in
  if (newIndex <? 0)%Z then throw (InvalidIndexError index length)
  else if (length <? index)%Z then throw (InvalidIndexError index length)
  else ret newIndex.

(** The result type [ExpressionWithTypeArguments | ExpressionWithTypeArguments[]];
    a single node that is [undefined] is [OneNode None]. *)
Inductive NodeOrNodes : Type :=
| OneNode (node : option ExpressionWithTypeArguments)
| ManyNodes (nodes : list ExpressionWithTypeArguments).

(** Modelled from the spec: [getNodeOrNodesToReturn], which gives the nodes
    at positions [index] through [index + length - 1] for the array
    overloads ([length > 0]) and the single node at [index] for the string
    overloads ([length = 0]). *)
Definition getNodeOrNodesToReturn (nodes : list ExpressionWithTypeArguments)
    (index : Z) (length : nat) : NodeOrNodes :=
  if 0 <? length
  then ManyNodes (firstn length (skipn (Z.to_nat index) nodes))
  else OneNode (nth_error nodes (Z.to_nat index)).

(** The types of the first heritage clause with the [implements] keyword
    replaced by [f] of them. *)
Fixpoint updateImplementsClause
    (f : list ExpressionWithTypeArguments -> list ExpressionWithTypeArguments)
    (clauses : list HeritageClause) : list HeritageClause :=
  match clauses with
  | [] => []
  | c :: rest =>
      if isImplementsKeyword (token c)
      then {| clauseId := clauseId c; token := token c; types := f (types c) |} :: rest
      else c :: updateImplementsClause f rest
  end.

Definition splice {A} (index : nat) (new old : list A) : list A :=
  firstn index old ++ new ++ skipn index old.

(** The start of the open brace after the text before it changed from
    [before] to [after]. *)
Definition movedBrace (before after : string) (brace : option nat) : option nat :=
  option_map (fun p => p + String.length after - String.length before) brace.

Section WithHost.

Variable host : Host.

(** Modelled from the spec: [insertIntoCommaSeparatedNodes], which splices
    the new texts into the existing comma-separated list at [insertIndex];
    every text becomes one new node. *)
Definition insertIntoCommaSeparatedNodes
    (opts : InsertIntoCommaSeparatedNodesOptions) : Action unit :=
  fun st =>
    let request := InsertIntoCommaSeparatedNodes opts in
    let created := freshNodes (nextId st) (newTexts opts) in
    let text := editedText host request st in
    Returned tt
      {| fullText := text;
         heritageClauses :=
           updateImplementsClause
             (fun _ => splice (Z.to_nat (insertIndex opts)) created (currentNodes opts))
             (heritageClauses st);
         openBraceToken := movedBrace (fullText st) text (openBraceToken st);
         nextId := nextId st + List.length (newTexts opts);
         manipulations := manipulations st ++ [request] |}.

(** Modelled from the spec: [insertIntoCreatableSyntaxList], which inserts
    [newText] at [insertPos]; the inserted text is one new child (a heritage
    clause) at [childIndex] of the heritage syntax list, which is created
    when [syntaxList] is [undefined]. *)
Definition insertIntoCreatableSyntaxList
    (opts : InsertIntoCreatableSyntaxListOptions) : Action unit :=
  fun st =>
    let request := InsertIntoCreatableSyntaxList opts in
    let parsed := parseHeritageClause host (newText opts) in
    let clause :=
      {| clauseId := nextId st;
         token := fst parsed;
         types := freshNodes (S (nextId st)) (snd parsed) |} in
    let text := Text.insertAt (insertPos opts) (newText opts) (fullText st) in
    Returned tt
      {| fullText := text;
         heritageClauses := splice (childIndex opts) [clause] (heritageClauses st);
         openBraceToken := movedBrace (fullText st) text (openBraceToken st);
         nextId := S (nextId st) + List.length (snd parsed);
         manipulations := manipulations st ++ [request] |}.

Definition removeChild (child : NodeRef) (clauses : list HeritageClause)
  : list HeritageClause :=
  match child with
  | HeritageSyntaxList => []
  | HeritageClauseRef c =>
      filter (fun c' => negb (Nat.eqb (clauseId c') (clauseId c))) clauses
  end.

(** Modelled from the spec: [removeChildren], which removes the given
    children (with the spaces before them when [removePrecedingSpaces]). *)
Definition removeChildren (opts : RemoveChildrenOptions) : Action unit :=
  fun st =>
    let request := RemoveChildren opts in
    let text := editedText host request st in
    Returned tt
      {| fullText := text;
         heritageClauses := fold_right removeChild (heritageClauses st) (children opts);
         openBraceToken := movedBrace (fullText st) text (openBraceToken st);
         nextId := nextId st;
         manipulations := manipulations st ++ [request] |}.

Definition removeType (child : ExpressionWithTypeArguments) (c : HeritageClause)
  : HeritageClause :=
  {| clauseId := clauseId c;
     token := token c;
     types := filter (fun t => negb (sameNode t child)) (types c) |}.

(** Modelled from the spec: [removeCommaSeparatedChild], which removes one
    element of a comma-separated list (with the spaces before it when
    [removePrecedingSpaces]). *)
Definition removeCommaSeparatedChild (child : ExpressionWithTypeArguments)
    (removeSpaces : bool) : Action unit :=
  fun st =>
    let request := RemoveCommaSeparatedChild child removeSpaces in
    let text := editedText host request st in
    Returned tt
      {| fullText := text;
         heritageClauses := map (removeType child) (heritageClauses st);
         openBraceToken := movedBrace (fullText st) text (openBraceToken st);
         nextId := nextId st;
         manipulations := manipulations st ++ [request] |}.

End WithHost.

End Manipulation.
Import Manipulation.

(* ================================================================== *)
(** ** ImplementsClauseableNode.ts *)

Module ImplementsClauseableNode.

(** [getImplementsHeritageClause]: the first clause whose keyword token is
    [implements] ([ArrayUtils.find]), [undefined] when there is none. *)
Definition getImplementsHeritageClause (heritageClauses : list HeritageClause)
  : option HeritageClause :=
  find (fun c => isImplementsKeyword (token c)) heritageClauses.

(** [getImplements(heritageClauses)] *)
Definition getImplements (heritageClauses : list HeritageClause)
  : list ExpressionWithTypeArguments :=
  match getImplementsHeritageClause heritageClauses with
  | None => []
  | Some implementsClause => types implementsClause
  end.

(** [this.getHeritageClauses()] *)
Definition getHeritageClauses : Action (list HeritageClause) :=
  fun st => Returned (heritageClauses st) st.

(** [this.getImplements()], the argument defaulting to
    [this.getHeritageClauses()]. *)
Definition thisGetImplements : Action (list ExpressionWithTypeArguments) :=
  clauses <- getHeritageClauses ;;
  ret (getImplements clauses).

(** [this.getFirstChildByKindOrThrow(ts.SyntaxKind.OpenBraceToken).getStart()] *)
Definition getOpenBraceStart : Action nat :=
  fun st =>
    match openBraceToken st with
    | Some start => Returned start st
    | None => Threw ChildOfKindNotFoundError st
    end.

(** [this.getSourceFile().getFullText()] *)
Definition getFullText : Action string :=
  fun st => Returned (fullText st) st.

(** The argument [texts: string | string[]]. *)
Inductive TextOrTexts : Type :=
| OneText (text : string)
| ManyTexts (texts : list string).

(** The receiver, as the value [this] that [removeImplements] returns. *)
Inductive Receiver : Type := This.

(** The argument [implementsNodeOrIndex]. *)
Inductive NodeOrIndex : Type :=
| ByIndex (index : Z)
| ByNode (implementsNode : ExpressionWithTypeArguments).

Section WithHost.

Variable host : Host.

(** The text handed to [insertIntoCreatableSyntaxList]. *)
Definition implementsInsertText (isLastSpace : bool) (texts : list string) : string :=
  let insertText := ("implements " ++ Text.join ", " texts ++ " ")%string in
  if negb isLastSpace then (" " ++ insertText)%string else insertText.

(** Lines 78 to 104 of the source: [insertImplements] from the point where
    [texts] is an array and [length] has been computed. *)
Definition insertTexts (index : Z) (texts : list string) (length : nat)
  : Action NodeOrNodes :=
  heritageClauses <- getHeritageClauses ;;
  let implementsTypes := getImplements heritageClauses in
  index <- verifyAndGetIndex index (Z.of_nat (List.length implementsTypes)) ;;
  if 0 <? List.length implementsTypes then
    insertIntoCommaSeparatedNodes host
      {| currentNodes := implementsTypes; insertIndex := index; newTexts := texts |} ;;;
    implementsNow <- thisGetImplements ;;
    ret (getNodeOrNodesToReturn implementsNow index length)
  else
    openBraceStart <- getOpenBraceStart ;;
    fullText <- getFullText ;;
    let isLastSpace :=
      Text.testWhitespace (Text.charAt fullText (Z.of_nat openBraceStart - 1)) in
    let insertText := implementsInsertText isLastSpace texts in
    (* assumes there can only be another extends heritage clause *)
    insertIntoCreatableSyntaxList host
      {| insertPos := openBraceStart;
         newText := insertText;
         syntaxList :=
           match heritageClauses with
           | [] => None
           | first :: _ => Some (getParentSyntaxListOrThrow first)
           end;
         childIndex := 1;
         insertItemsCount := 1 |} ;;;
    implementsNow <- thisGetImplements ;;
    ret (getNodeOrNodesToReturn implementsNow index length).

(** [insertImplements]: lines 69 to 76 of the source, then the body. *)
Definition insertImplements (index : Z) (texts : TextOrTexts) : Action NodeOrNodes :=
  let length :=
    match texts with
    | ManyTexts l => List.length l
    | OneText _ => 0
    end in
  match texts with
  | OneText text =>
      throwIfNotStringOrWhitespace text "texts" ;;;
      insertTexts index [text] length
  | ManyTexts [] => ret (ManyNodes [])
  | ManyTexts l => insertTexts index l length
  end.

(** [addImplements] *)
Definition addImplements (text : TextOrTexts) : Action NodeOrNodes :=
  implementsNow <- thisGetImplements ;;
  insertImplements (Z.of_nat (List.length implementsNow)) text.

(** The inner function [getImplementsFromIndex]; the indexing gives
    [undefined] ([None]) outside the array. *)
Definition getImplementsFromIndex
    (implementsNodes : list ExpressionWithTypeArguments) (index : Z)
  : Action (option ExpressionWithTypeArguments) :=
  verified <- verifyAndGetIndex index (Z.of_nat (List.length implementsNodes) - 1) ;;
  ret (nth_error implementsNodes (Z.to_nat verified)).

(** [removeImplements].  Two branches stand for JavaScript failing on an
    [undefined] value: the non-null assertion on
    [getImplementsHeritageClause(heritageClauses)], and a node taken from
    outside the array. *)
Definition removeImplements (implementsNodeOrIndex : NodeOrIndex) : Action Receiver :=
  implementsNodes <- thisGetImplements ;;
  if List.length implementsNodes =? 0 then
    throw (InvalidOperationError "Cannot remove an implements when none exist.")
  else
    implementsNodeToRemove <-
      match implementsNodeOrIndex with
      | ByIndex index => getImplementsFromIndex implementsNodes index
      | ByNode node => ret (Some node)
      end ;;
    (if List.length implementsNodes =? 1 then
       heritageClauses <- getHeritageClauses ;;
       match heritageClauses with
       | [only] =>
           removeChildren host
             {| children := [getParentSyntaxListOrThrow only];
                removePrecedingSpaces := true |}
       | _ =>
           match getImplementsHeritageClause heritageClauses with
           | Some implementsClause =>
               removeChildren host
                 {| children := [HeritageClauseRef implementsClause];
                    removePrecedingSpaces := true |}
           | None => throw UndefinedNodeError
           end
       end
     else
       match implementsNodeToRemove with
       | Some node =>
           removeCommaSeparatedChild host node
             (strictNotEqual implementsNodeToRemove (nth_error implementsNodes 0))
       | None => throw UndefinedNodeError
       end) ;;;
    ret This.

End WithHost.

End ImplementsClauseableNode.
Import ImplementsClauseableNode.

(* ================================================================== *)
(** ** GetAccessorDeclarationStructurePrinter.ts *)

Module GetAccessorPrinter.

(** The constructor argument [options]. *)
Record Options : Type := { isAmbient : bool }.

Section Printer.

(** The structures of the parts are those of the collaborating printers;
    [Rest] stands for the fields of the structure that only they read
    (scope, static flag, return type, body text). *)
Context {JSDocStructure DecoratorStructure : Type}.
Context {TypeParameterDeclarationStructure ParameterDeclarationStructure : Type}.
Context {Rest : Type}.

Record GetAccessorDeclarationStructure : Type := {
  name : string;
  docs : option (list JSDocStructure);
  decorators : option (list DecoratorStructure);
  typeParameters : option (list TypeParameterDeclarationStructure);
  parameters : option (list ParameterDeclarationStructure);
  isAbstract : option bool;
  rest : Rest
}.

(** Truthiness of an optional boolean field. *)
Definition truthy (flag : option bool) : bool :=
  match flag with
  | Some b => b
  | None => false
  end.

(** The methods of [CodeBlockWriter] that [printText] calls.  The writer is
    a mutable object; each method is a function on its state. *)
Class CodeBlockWriter (W : Type) : Type := {
  write : string -> W -> W;
  spaceIfLastNot : W -> W;
  inlineBlock : (W -> W) -> W -> W
}.

(** The printers that [printText] obtains from the factory. *)
Class StructurePrinterFactory (W : Type) : Type := {
  (* forJSDoc().printDocs *)
  printDocs : W -> option (list JSDocStructure) -> W;
  (* forDecorator().printTexts *)
  printDecorators : W -> option (list DecoratorStructure) -> W;
  (* forModifierableNode().printText *)
  printModifiers : W -> GetAccessorDeclarationStructure -> W;
  (* forTypeParameterDeclaration().printTextsWithBrackets *)
  printTypeParametersWithBrackets :
    W -> option (list TypeParameterDeclarationStructure) -> W;
  (* forParameterDeclaration().printTexts *)
  printParameters : W -> option (list ParameterDeclarationStructure) -> W;
  (* forReturnTypedNode().printText *)
  printReturnType : W -> GetAccessorDeclarationStructure -> W;
  (* forBodyText(options).printText *)
  printBodyText : Options -> W -> GetAccessorDeclarationStructure -> W
}.

Definition printText {W} `{CodeBlockWriter W} `{StructurePrinterFactory W}
    (options : Options) (writer : W) (structure : GetAccessorDeclarationStructure) : W :=
  let writer := printDocs writer (docs structure) in
  let writer := printDecorators writer (decorators structure) in
  let writer := printModifiers writer structure in
  let writer := write ("get " ++ name structure)%string writer in
  let writer := printTypeParametersWithBrackets writer (typeParameters structure) in
  let writer := write "(" writer in
  let writer := printParameters writer (parameters structure) in
  let writer := write ")" writer in
  let writer := printReturnType writer structure in
  if isAmbient options || truthy (isAbstract structure)
  then write ";" writer
  else
    inlineBlock (fun writer => printBodyText options writer structure)
                (spaceIfLastNot writer).

(** *** A writer and a factory that record what they are asked to print *)

#[warnings="-register-all"] Inductive Piece : Type :=
| Docs (d : option (list JSDocStructure))
| Decorators (d : option (list DecoratorStructure))
| Modifiers (s : GetAccessorDeclarationStructure)
| Written (text : string)
| TypeParametersWithBrackets (t : option (list TypeParameterDeclarationStructure))
| Parameters (p : option (list ParameterDeclarationStructure))
| ReturnType (s : GetAccessorDeclarationStructure)
| SpaceIfLastNot
| InlineBlock (body : list Piece)
| BodyText (options : Options) (s : GetAccessorDeclarationStructure).

Definition Recorder : Type := list Piece.

#[local] Instance recordingWriter : CodeBlockWriter Recorder := {
  write text w := w ++ [Written text];
  spaceIfLastNot w := w ++ [SpaceIfLastNot];
  inlineBlock block w := w ++ [InlineBlock (block [])]
}.

#[local] Instance recordingFactory : StructurePrinterFactory Recorder := {
  printDocs w d := w ++ [Docs d];
  printDecorators w d := w ++ [Decorators d];
  printModifiers w s := w ++ [Modifiers s];
  printTypeParametersWithBrackets w t := w ++ [TypeParametersWithBrackets t];
  printParameters w p := w ++ [Parameters p];
  printReturnType w s := w ++ [ReturnType s];
  printBodyText options w s := w ++ [BodyText options s]
}.

(** [printText] on a recording writer that already holds [writer]. *)
Definition printTextRecorded (options : Options) (writer : Recorder)
    (structure : GetAccessorDeclarationStructure) : Recorder :=
  printText options writer structure.

(** The pieces of the declaration up to and including the return type. *)
Definition headPieces (structure : GetAccessorDeclarationStructure) : list Piece :=
  [ Docs (docs structure);
    Decorators (decorators structure);
    Modifiers structure;
    Written ("get " ++ name structure)%string;
    TypeParametersWithBrackets (typeParameters structure);
    Written "(";
    Parameters (parameters structure);
    Written ")";
    ReturnType structure ].

(** *** A writer that accumulates text

    Each collaborating printer contributes a text fragment that depends on
    the structure alone; [block] is the layout the writer gives to an
    inline block with the given content. *)

Record Fragments : Type := {
  docsText : option (list JSDocStructure) -> string;
  decoratorsText : option (list DecoratorStructure) -> string;
  modifiersText : GetAccessorDeclarationStructure -> string;
  typeParametersText : option (list TypeParameterDeclarationStructure) -> string;
  parametersText : option (list ParameterDeclarationStructure) -> string;
  returnTypeText : GetAccessorDeclarationStructure -> string;
  bodyText : Options -> GetAccessorDeclarationStructure -> string;
  block : string -> string
}.

Fixpoint lastChar (s : string) : option ascii :=
  match s with
  | EmptyString => None
  | String c EmptyString => Some c
  | String _ more => lastChar more
  end.

Definition endsWithSpace (s : string) : bool :=
  match lastChar s with
  | Some c => Ascii.eqb c " "%char
  | None => false
  end.

Definition textWriter (f : Fragments) : CodeBlockWriter string := {|
  write text w := (w ++ text)%string;
  spaceIfLastNot w := if endsWithSpace w then w else (w ++ " ")%string;
  inlineBlock body w := (w ++ block f (body ""))%string
|}.

Definition textFactory (f : Fragments) : StructurePrinterFactory string := {|
  printDocs w d := (w ++ docsText f d)%string;
  printDecorators w d := (w ++ decoratorsText f d)%string;
  printModifiers w s := (w ++ modifiersText f s)%string;
  printTypeParametersWithBrackets w t := (w ++ typeParametersText f t)%string;
  printParameters w p := (w ++ parametersText f p)%string;
  printReturnType w s := (w ++ returnTypeText f s)%string;
  printBodyText options w s := (w ++ bodyText f options s)%string
|}.

(** [printText] on a text writer that already holds [writer]. *)
Definition printTextAsText (f : Fragments) (options : Options) (writer : string)
    (structure : GetAccessorDeclarationStructure) : string :=
  @printText string (textWriter f) (textFactory f) options writer structure.

(** The text of the declaration up to and including the return type. *)
Definition headText (f : Fragments) (structure : GetAccessorDeclarationStructure)
  : string :=
  (docsText f (docs structure) ++ decoratorsText f (decorators structure)
   ++ modifiersText f structure ++ "get " ++ name structure
   ++ typeParametersText f (typeParameters structure) ++ "("
   ++ parametersText f (parameters structure) ++ ")"
   ++ returnTypeText f structure)%string.

End Printer.

End GetAccessorPrinter.
Import GetAccessorPrinter.

(* ================================================================== *)
(** ** An example host and example nodes

    A naive host for evaluating the methods on concrete nodes: it rewrites
    the text by replacing the printed form of the list or clause, and reads
    an inserted clause by splitting it at its commas. *)

Module Example.

Definition replaceFirst (old new text : string) : string :=
  match index 0 old text with
  | Some p =>
      (substring 0 p text ++ new
         ++ substring (p + String.length old)
                      (String.length text - (p + String.length old)) text)%string
  | None => text
  end.

Definition listText (nodes : list ExpressionWithTypeArguments) : string :=
  Text.join ", " (map nodeText nodes).

Definition clauseText (c : HeritageClause) : string :=
  ((if isImplementsKeyword (token c) then " implements " else " extends ")
     ++ listText (types c))%string.

Definition exampleEditedText (request : Manipulation) (node : ClassNode) : string :=
  match request with
  | InsertIntoCommaSeparatedNodes o =>
      replaceFirst (listText (currentNodes o))
        (listText (splice (Z.to_nat (insertIndex o))
                          (freshNodes 0 (newTexts o)) (currentNodes o)))
        (fullText node)
  | InsertIntoCreatableSyntaxList o =>
      Text.insertAt (insertPos o) (newText o) (fullText node)
  | RemoveChildren o =>
      fold_right
        (fun child text =>
           match child with
           | HeritageSyntaxList =>
               replaceFirst
                 (String.concat "" (map clauseText (heritageClauses node))) "" text
           | HeritageClauseRef c => replaceFirst (clauseText c) "" text
           end)
        (fullText node) (children o)
  | RemoveCommaSeparatedChild child spaces =>
      if spaces
      then replaceFirst (", " ++ nodeText child) "" (fullText node)
      else replaceFirst (nodeText child ++ ", ") "" (fullText node)
  end.

(** The texts between the commas of [s], without the spaces around them;
    [word] is the text read since the last comma, backwards. *)
Fixpoint splitAtCommas (word : list ascii) (s : string) : list string :=
  let finish w := string_of_list_ascii (rev w) in
  match s with
  | EmptyString => [finish word]
  | String c more =>
      if Ascii.eqb c ","%char then finish word :: splitAtCommas [] more
      else if Ascii.eqb c " "%char then splitAtCommas word more
      else splitAtCommas (c :: word) more
  end.

Fixpoint dropSpaces (s : string) : string :=
  match s with
  | String c more => if Ascii.eqb c " "%char then dropSpaces more else s
  | EmptyString => s
  end.

Definition exampleParseHeritageClause (text : string) : SyntaxKind * list string :=
  let text := dropSpaces text in
  if prefix "implements" text
  then (ImplementsKeyword,
        splitAtCommas [] (substring 10 (String.length text - 10) text))
  else (ExtendsKeyword,
        splitAtCommas [] (substring 7 (String.length text - 7) text)).

Definition exampleHost : Host :=
  {| editedText := exampleEditedText;
     parseHeritageClause := exampleParseHeritageClause |}.

Definition typeA : ExpressionWithTypeArguments := {| nodeId := 1; nodeText := "A" |}.
Definition typeB : ExpressionWithTypeArguments := {| nodeId := 2; nodeText := "B" |}.
Definition typeBase : ExpressionWithTypeArguments := {| nodeId := 4; nodeText := "Base" |}.

(** [class C {}] *)
Definition bareClass : ClassNode :=
  {| fullText := "class C {}";
     heritageClauses := [];
     openBraceToken := Some 8;
     nextId := 0;
     manipulations := [] |}.

(** [class C{}] *)
Definition tightClass : ClassNode :=
  {| fullText := "class C{}";
     heritageClauses := [];
     openBraceToken := Some 7;
     nextId := 0;
     manipulations := [] |}.

(** [class C extends Base {}] *)
Definition extendingClass : ClassNode :=
  {| fullText := "class C extends Base {}";
     heritageClauses := [ {| clauseId := 3; token := ExtendsKeyword; types := [typeBase] |} ];
     openBraceToken := Some 21;
     nextId := 5;
     manipulations := [] |}.

(** [class C implements A {}] *)
Definition implementingClass : ClassNode :=
  {| fullText := "class C implements A {}";
     heritageClauses := [ {| clauseId := 0; token := ImplementsKeyword; types := [typeA] |} ];
     openBraceToken := Some 21;
     nextId := 2;
     manipulations := [] |}.

(** [class C implements A, B {}] *)
Definition twiceImplementingClass : ClassNode :=
  {| fullText := "class C implements A, B {}";
     heritageClauses :=
       [ {| clauseId := 0; token := ImplementsKeyword; types := [typeA; typeB] |} ];
     openBraceToken := Some 24;
     nextId := 3;
     manipulations := [] |}.

(** [class C extends Base implements A {}] *)
Definition extendingImplementingClass : ClassNode :=
  {| fullText := "class C extends Base implements A {}";
     heritageClauses :=
       [ {| clauseId := 3; token := ExtendsKeyword; types := [typeBase] |};
         {| clauseId := 0; token := ImplementsKeyword; types := [typeA] |} ];
     openBraceToken := Some 34;
     nextId := 5;
     manipulations := [] |}.

End Example.
Import Example.


(* ================================================================== *)
(** ** Vocabulary of the statements *)

Module Statement.

(** An index from [0] to [length], which the index validation accepts and
    hands back as it is. *)
Definition accepted (index length : Z) : bool :=
  ((0 <=? index) && (index <=? length))%Z.

(** Number of implements types of a node. *)
Definition implementsCount (st : ClassNode) : Z :=
  Z.of_nat (List.length (getImplements (heritageClauses st))).

(** The [texts] argument passes the string precondition: it is an array, or
    a string that is neither empty nor whitespace only. *)
Definition passesStringCheck (texts : TextOrTexts) : bool :=
  match texts with
  | OneText text => negb (Text.isWhitespaceOnly text)
  | ManyTexts _ => true
  end.

(** The texts of the argument, as an array. *)
Definition textsOf (texts : TextOrTexts) : list string :=
  match texts with
  | OneText text => [text]
  | ManyTexts l => l
  end.


(** The character before offset [pos] of [text] exists and is whitespace. *)
Definition whitespaceBefore (text : string) (pos : nat) : bool :=
  match pos with
  | 0 => false
  | S before =>
      match String.get before text with
      | Some c => Text.isWhitespaceChar c
      | None => false
      end
  end.

(** The node that the argument of [removeImplements] designates among
    [nodes]: the given node, or the node at an index that the validation
    accepts. *)
Definition targetOf (arg : NodeOrIndex) (nodes : list ExpressionWithTypeArguments)
  : option ExpressionWithTypeArguments :=
  match arg with
  | ByNode node => Some node
  | ByIndex index =>
      if accepted index (Z.of_nat (List.length nodes) - 1)
      then nth_error nodes (Z.to_nat index)
      else None
  end.


(** The index validation lets [index] pass for a list of [length]
    elements: it lies between [- length] and [length]. *)
Definition validIndex (index length : Z) : bool :=
  ((- length <=? index) && (index <=? length))%Z.

(** The index that the validation hands back: a negative index counted
    from the end. *)
Definition resolvedIndex (index length : Z) : Z :=
  if (index <? 0)%Z then (length + index)%Z else index.

(** The implements node that the argument of [removeImplements] names:
    the node at an index that the validation lets pass, or the given node
    when it is one of the implements nodes. *)
Definition namedTarget (arg : NodeOrIndex) (nodes : list ExpressionWithTypeArguments)
  : option ExpressionWithTypeArguments :=
  match arg with
  | ByNode node => if existsb (sameNode node) nodes then Some node else None
  | ByIndex index =>
      let last := (Z.of_nat (List.length nodes) - 1)%Z in
      if validIndex index last
      then nth_error nodes (Z.to_nat (resolvedIndex index last))
      else None
  end.

Definition isInvalidIndexError {A} (o : Outcome A) : bool :=
  match o with
  | Threw (InvalidIndexError _ _) _ => true
  | _ => false
  end.

Definition isPreconditionError {A} (o : Outcome A) : bool :=
  match o with
  | Threw (ArgumentNullOrWhitespaceError _) _ => true
  | _ => false
  end.

End Statement.
Import Statement.

(* ================================================================== *)
(** ** ImplementsClauseableNode.ts: fill *)

Module Filling.

Section Fill.

(** [Others] stands for the fields of the structure that the base classes
    read. *)
Context {Others : Type}.

(** [Partial<ImplementsClauseableNodeStructure>]: [implements] may be
    absent. *)
Record ImplementsClauseableNodeStructure : Type := {
  implements : option (list string);
  others : Others
}.

Variable host : Host.

(** [callBaseFill(Base.prototype, this, structure)], the [fill] of the
    class that the mixin extends; it is a parameter. *)
Variable callBaseFill : ImplementsClauseableNodeStructure -> Action unit.

(** [fill] *)
Definition fill (structure : ImplementsClauseableNodeStructure) : Action Receiver :=
  callBaseFill structure ;;;
  match implements structure with
  | Some texts =>
      if 0 <? List.length texts
      then addImplements host (ManyTexts texts) ;;; ret tt
      else ret tt
  | None => ret tt
  end ;;;
  ret This.

End Fill.

End Filling.
Import Filling.

(* ================================================================== *)
(** ** More example nodes *)

Module MoreExamples.

(** [class C], cut off before its body: no open brace token. *)
Definition bracelessClass : ClassNode :=
  {| fullText := "class C";
     heritageClauses := [];
     openBraceToken := None;
     nextId := 0;
     manipulations := [] |}.

(** A base [fill] that has nothing to fill. *)
Definition emptyBaseFill (structure : @ImplementsClauseableNodeStructure unit)
  : Action unit :=
  ret tt.

End MoreExamples.
Import MoreExamples.

(* ================================================================== *)
(** ** The monad *)

Lemma bind_ret_left {A B} (a : A) (k : A -> Action B) (st : ClassNode) :
  bind (ret a) k st = k a st.
Proof. reflexivity. Qed.

Lemma bind_ret_right {A} (m : Action A) (st : ClassNode) :
  bind m ret st = m st.
Proof. unfold bind, ret. destruct (m st); reflexivity. Qed.

Lemma bind_assoc {A B C} (m : Action A) (k : A -> Action B) (h : B -> Action C)
    (st : ClassNode) :
  bind (bind m k) h st = bind m (fun a => bind (k a) h) st.
Proof. unfold bind. destruct (m st); reflexivity. Qed.

Lemma bind_throw {A B} (e : Error) (k : A -> Action B) (st : ClassNode) :
  bind (throw e) k st = Threw e st.
Proof. reflexivity. Qed.

(* ================================================================== *)
(** ** Strings *)

Lemma isWhitespaceOnly_spec (s : string) :
  Text.isWhitespaceOnly s = true
  <-> Forall (fun c => Text.isWhitespaceChar c = true) (list_ascii_of_string s).
Proof.
  induction s as [|c rest IH]; simpl.
  - split; [constructor | reflexivity].
  - rewrite andb_true_iff, IH. split.
    + intros [Hc Hrest]. constructor; assumption.
    + intros H. inversion H; subst. split; assumption.
Qed.

Lemma length_append (a b : string) :
  String.length (a ++ b)%string = String.length a + String.length b.
Proof.
  induction a as [|c a IH]; simpl.
  - reflexivity.
  - rewrite IH. reflexivity.
Qed.

Lemma length_substring (n m : nat) (s : string) :
  n + m <= String.length s -> String.length (substring n m s) = m.
Proof.
  revert n m. induction s as [|c s IH]; intros n m Hle; simpl in *.
  - destruct n, m; simpl; lia.
  - destruct n as [|n].
    + destruct m as [|m]; simpl; [reflexivity|].
      rewrite IH by lia. reflexivity.
    + apply IH. lia.
Qed.

Lemma get_append_right (a b : string) (n : nat) :
  String.get (String.length a + n) (a ++ b)%string = String.get n b.
Proof.
  induction a as [|c a IH]; simpl.
  - reflexivity.
  - exact IH.
Qed.

Lemma substring_from (n : nat) (s : string) (k : nat) :
  n <= String.length s ->
  String.get k (substring n (String.length s - n) s) = String.get (n + k) s.
Proof.
  revert n k. induction s as [|c s IH]; intros n k Hle; simpl in *.
  - assert (n = 0) by lia. subst. reflexivity.
  - destruct n as [|n].
    + simpl. destruct k as [|k]; [reflexivity|].
      pose proof (IH 0 k (Nat.le_0_l _)) as H0.
      rewrite Nat.sub_0_r in H0. exact H0.
    + simpl. apply IH. lia.
Qed.

(** Inserting a text makes the source text longer by its length and moves
    the character at the insertion point to the right by as much. *)
Lemma length_insertAt (pos : nat) (inserted text : string) :
  pos <= String.length text ->
  String.length (Text.insertAt pos inserted text)
  = String.length text + String.length inserted.
Proof.
  intros Hle. unfold Text.insertAt. rewrite !length_append.
  rewrite !length_substring by lia. lia.
Qed.

Lemma get_insertAt (pos : nat) (inserted text : string) :
  pos <= String.length text ->
  String.get (pos + String.length inserted) (Text.insertAt pos inserted text)
  = String.get pos text.
Proof.
  intros Hle. unfold Text.insertAt.
  assert (Hp : String.length (substring 0 pos text) = pos)
    by (apply length_substring; lia).
  replace (pos + String.length inserted)
    with (String.length (substring 0 pos text) + (String.length inserted + 0))
    by lia.
  rewrite !get_append_right. rewrite substring_from by lia.
  rewrite Nat.add_0_r. reflexivity.
Qed.

(* ================================================================== *)
(** ** Lists: splicing and slicing *)

Section ListFacts.

Context {A : Type}.





End ListFacts.

Lemma map_nodeText_freshNodes (next : nat) (texts : list string) :
  map nodeText (freshNodes next texts) = texts.
Proof.
  revert next. induction texts as [|t rest IH]; intros next; simpl.
  - reflexivity.
  - rewrite IH. reflexivity.
Qed.

Lemma length_freshNodes (next : nat) (texts : list string) :
  List.length (freshNodes next texts) = List.length texts.
Proof.
  rewrite <- (map_nodeText_freshNodes next texts) at 2.
  symmetry. apply length_map.
Qed.

(* ================================================================== *)
(** ** Reading the implements types *)

Lemma getImplements_nonempty_clause (clauses : list HeritageClause) :
  getImplements clauses <> [] ->
  exists c, getImplementsHeritageClause clauses = Some c
            /\ types c = getImplements clauses.
Proof.
  unfold getImplements.
  destruct (getImplementsHeritageClause clauses) as [c|].
  - intros _. exists c. split; reflexivity.
  - intros H. contradiction H. reflexivity.
Qed.

Lemma getImplements_updateImplementsClause f (clauses : list HeritageClause) :
  getImplements clauses <> [] ->
  getImplements (updateImplementsClause f clauses) = f (getImplements clauses).
Proof.
  unfold getImplements, getImplementsHeritageClause.
  induction clauses as [|c rest IH]; simpl.
  - intros H. contradiction H. reflexivity.
  - destruct (isImplementsKeyword (token c)) eqn:Hc; simpl.
    + rewrite Hc. reflexivity.
    + rewrite Hc. exact IH.
Qed.

(* ================================================================== *)
(** ** insertImplements *)

Section InsertImplements.

Variable host : Host.

Lemma accepted_spec (index length : Z) :
  accepted index length = true <-> (0 <= index <= length)%Z.
Proof. unfold accepted. rewrite andb_true_iff, !Z.leb_le. tauto. Qed.

Lemma validIndex_spec (index length : Z) :
  validIndex index length = true <-> (- length <= index <= length)%Z.
Proof. unfold validIndex. rewrite andb_true_iff, !Z.leb_le. tauto. Qed.

(** The index validation, by cases. *)
Lemma verifyAndGetIndex_cases (index length : Z) (st : ClassNode) :
  verifyAndGetIndex index length st
  = if validIndex index length
    then Returned (resolvedIndex index length) st
    else Threw (InvalidIndexError index length) st.
Proof.
  unfold verifyAndGetIndex, validIndex, resolvedIndex, throw, ret.
  destruct (index <? 0)%Z eqn:Hneg;
    [apply Z.ltb_lt in Hneg | apply Z.ltb_ge in Hneg].
  - destruct (length + index <? 0)%Z eqn:Hnew;
      [apply Z.ltb_lt in Hnew | apply Z.ltb_ge in Hnew].
    + replace (- length <=? index)%Z with false
        by (symmetry; apply Z.leb_gt; lia).
      reflexivity.
    + replace (length <? index)%Z with false by (symmetry; apply Z.ltb_ge; lia).
      replace (- length <=? index)%Z with true by (symmetry; apply Z.leb_le; lia).
      replace (index <=? length)%Z with true by (symmetry; apply Z.leb_le; lia).
      reflexivity.
  - replace (index <? 0)%Z with false by (symmetry; apply Z.ltb_ge; lia).
    destruct (length <? index)%Z eqn:Hbig;
      [apply Z.ltb_lt in Hbig | apply Z.ltb_ge in Hbig].
    + replace (index <=? length)%Z with false by (symmetry; apply Z.leb_gt; lia).
      rewrite andb_false_r. reflexivity.
    + replace (- length <=? index)%Z with true by (symmetry; apply Z.leb_le; lia).
      replace (index <=? length)%Z with true by (symmetry; apply Z.leb_le; lia).
      reflexivity.
Qed.

(** An index from [0] to [length] passes and is used as it is. *)
Lemma accepted_validIndex (index length : Z) :
  accepted index length = true ->
  validIndex index length = true /\ resolvedIndex index length = index.
Proof.
  intros Hacc. apply accepted_spec in Hacc. split.
  - apply validIndex_spec. lia.
  - unfold resolvedIndex.
    replace (index <? 0)%Z with false by (symmetry; apply Z.ltb_ge; lia).
    reflexivity.
Qed.

Lemma verifyAndGetIndex_accepted (index length : Z) (st : ClassNode) :
  accepted index length = true ->
  verifyAndGetIndex index length st = Returned index st.
Proof.
  intros Hacc. destruct (accepted_validIndex _ _ Hacc) as [Hvalid Hres].
  rewrite verifyAndGetIndex_cases, Hvalid, Hres. reflexivity.
Qed.

Lemma testWhitespace_charAt (text : string) (start : nat) :
  Text.testWhitespace (Text.charAt text (Z.of_nat start - 1))
  = whitespaceBefore text start.
Proof.
  unfold Text.charAt, whitespaceBefore. destruct start as [|before].
  - reflexivity.
  - replace (Z.of_nat (S before) - 1)%Z with (Z.of_nat before) by lia.
    destruct (Z.of_nat before <? 0)%Z eqn:Hneg.
    + apply Z.ltb_lt in Hneg. lia.
    + rewrite Nat2Z.id. reflexivity.
Qed.

Lemma implementsInsertText_spec (isLastSpace : bool) (texts : list string) :
  implementsInsertText isLastSpace texts
  = ((if isLastSpace then "" else " ")
       ++ "implements " ++ Text.join ", " texts ++ " ")%string.
Proof. destruct isLastSpace; reflexivity. Qed.

(** The body of [insertImplements], by cases. *)
Lemma insertTexts_cases (st : ClassNode) (index : Z) (texts : list string)
    (length : nat) :
  insertTexts host index texts length st
  = let old := getImplements (heritageClauses st) in
    let used := resolvedIndex index (implementsCount st) in
    if validIndex index (implementsCount st) then
      if 0 <? List.length old then
        let st' :=
          outcomeState
            (insertIntoCommaSeparatedNodes host
               {| currentNodes := old; insertIndex := used; newTexts := texts |} st) in
        Returned
          (getNodeOrNodesToReturn (getImplements (heritageClauses st')) used length) st'
      else
        match openBraceToken st with
        | Some start =>
            let st' :=
              outcomeState
                (insertIntoCreatableSyntaxList host
                   {| insertPos := start;
                      newText :=
                        implementsInsertText
                          (whitespaceBefore (fullText st) start) texts;
                      syntaxList :=
                        match heritageClauses st with
                        | [] => None
                        | _ :: _ => Some HeritageSyntaxList
                        end;
                      childIndex := 1;
                      insertItemsCount := 1 |} st) in
            Returned
              (getNodeOrNodesToReturn (getImplements (heritageClauses st')) used length)
              st'
        | None => Threw ChildOfKindNotFoundError st
        end
    else Threw (InvalidIndexError index (implementsCount st)) st.
Proof.
  cbv zeta.
  unfold insertTexts, bind, getHeritageClauses.
  rewrite verifyAndGetIndex_cases. fold (implementsCount st).
  destruct (validIndex index (implementsCount st)); [|reflexivity].
  destruct (0 <? List.length (getImplements (heritageClauses st))); [reflexivity|].
  unfold getOpenBraceStart.
  destruct (openBraceToken st) as [start|]; [|reflexivity].
  unfold getFullText. rewrite testWhitespace_charAt.
  destruct (heritageClauses st); reflexivity.
Qed.

(** The same for an index from [0] to the count, which is used as it is. *)
Lemma insertTexts_cases_accepted (st : ClassNode) (index : Z) (texts : list string)
    (length : nat) :
  accepted index (implementsCount st) = true ->
  insertTexts host index texts length st
  = let old := getImplements (heritageClauses st) in
    if 0 <? List.length old then
      let st' :=
        outcomeState
          (insertIntoCommaSeparatedNodes host
             {| currentNodes := old; insertIndex := index; newTexts := texts |} st) in
      Returned
        (getNodeOrNodesToReturn (getImplements (heritageClauses st')) index length) st'
    else
      match openBraceToken st with
      | Some start =>
          let st' :=
            outcomeState
              (insertIntoCreatableSyntaxList host
                 {| insertPos := start;
                    newText :=
                      implementsInsertText
                        (whitespaceBefore (fullText st) start) texts;
                    syntaxList :=
                      match heritageClauses st with
                      | [] => None
                      | _ :: _ => Some HeritageSyntaxList
                      end;
                    childIndex := 1;
                    insertItemsCount := 1 |} st) in
          Returned
            (getNodeOrNodesToReturn (getImplements (heritageClauses st')) index length)
            st'
      | None => Threw ChildOfKindNotFoundError st
      end.
Proof.
  intros Hacc. destruct (accepted_validIndex _ _ Hacc) as [Hvalid Hres].
  rewrite insertTexts_cases. cbv zeta. rewrite Hvalid, Hres. reflexivity.
Qed.

(** With implements types present and an accepted index, the body of
    [insertImplements] makes one comma-separated insertion and returns what
    [getNodeOrNodesToReturn] selects from the updated list. *)
Lemma insertTexts_existing (st : ClassNode) (index : Z) (texts : list string)
    (length : nat) :
  getImplements (heritageClauses st) <> [] ->
  accepted index (implementsCount st) = true ->
  let old := getImplements (heritageClauses st) in
  let request :=
    {| currentNodes := old; insertIndex := index; newTexts := texts |} in
  let st' := outcomeState (insertIntoCommaSeparatedNodes host request st) in
  insertTexts host index texts length st
  = Returned
      (getNodeOrNodesToReturn (getImplements (heritageClauses st')) index length) st'
  /\ getImplements (heritageClauses st')
     = splice (Z.to_nat index) (freshNodes (nextId st) texts) old
  /\ manipulations st' = manipulations st ++ [InsertIntoCommaSeparatedNodes request].
Proof.
  intros Hne Hacc old request st'.
  assert (Hpos : (0 <? List.length old) = true).
  { apply Nat.ltb_lt. subst old. destruct (getImplements (heritageClauses st)).
    - contradiction Hne; reflexivity.
    - simpl; lia. }
  split; [|split].
  - rewrite (insertTexts_cases_accepted _ _ _ _ Hacc). cbv zeta. fold old.
    rewrite Hpos. reflexivity.
  - subst st'. simpl.
    rewrite getImplements_updateImplementsClause by exact Hne. reflexivity.
  - reflexivity.
Qed.

(** C9.  [insertImplements] with an empty array returns an empty array and
    leaves the node as it was, whatever the index: the same source text, the
    same implements types, and no call to the manipulation helpers. *)
Theorem insertImplements_empty_array (st : ClassNode) (index : Z) :
  exists st',
    insertImplements host index (ManyTexts []) st = Returned (ManyNodes []) st'
    /\ fullText st' = fullText st
    /\ getImplements (heritageClauses st') = getImplements (heritageClauses st)
    /\ manipulations st' = manipulations st
    /\ st' = st.
Proof.
  exists st. split.
  - unfold insertImplements, ret. reflexivity.
  - repeat split; reflexivity.
Qed.


(** Without implements types, the body of [insertImplements] makes one
    insertion into the heritage syntax list, at the open brace. *)
Lemma insertTexts_none (st : ClassNode) (index : Z) (texts : list string)
    (length start : nat) :
  getImplements (heritageClauses st) = [] ->
  accepted index (implementsCount st) = true ->
  openBraceToken st = Some start ->
  let request :=
    {| insertPos := start;
       newText := implementsInsertText (whitespaceBefore (fullText st) start) texts;
       syntaxList :=
         match heritageClauses st with
         | [] => None
         | _ :: _ => Some HeritageSyntaxList
         end;
       childIndex := 1;
       insertItemsCount := 1 |} in
  let st' := outcomeState (insertIntoCreatableSyntaxList host request st) in
  insertTexts host index texts length st
  = Returned
      (getNodeOrNodesToReturn (getImplements (heritageClauses st')) index length) st'.
Proof.
  intros Hnone Hacc Hbrace request st'.
  rewrite (insertTexts_cases_accepted _ _ _ _ Hacc). cbv zeta.
  rewrite Hnone, Hbrace. reflexivity.
Qed.

(** The insertion in front of the open brace moves the brace to the right
    by the length of the inserted text, where the same character stands. *)
Lemma insertIntoCreatableSyntaxList_moves_brace
    (opts : InsertIntoCreatableSyntaxListOptions) (st : ClassNode) :
  openBraceToken st = Some (insertPos opts) ->
  insertPos opts <= String.length (fullText st) ->
  let st' := outcomeState (insertIntoCreatableSyntaxList host opts st) in
  openBraceToken st' = Some (insertPos opts + String.length (newText opts))
  /\ String.get (insertPos opts + String.length (newText opts)) (fullText st')
     = String.get (insertPos opts) (fullText st).
Proof.
  intros Hbrace Hle. cbv zeta. simpl. split.
  - unfold movedBrace. rewrite Hbrace. simpl.
    rewrite length_insertAt by exact Hle. f_equal. lia.
  - apply get_insertAt. exact Hle.
Qed.

(** C2 (amended).  On a node without implements types, a call of
    [insertImplements] that passes the string precondition with at least one
    text and an index that the validation accepts asks for exactly one
    insertion into the heritage syntax list: of the text ["implements "],
    the texts joined by [", "] and a space, with one more space in front
    exactly when the character before the open brace is not whitespace; at
    the start of the open brace; into a new syntax list when the node has no
    heritage clause and into the existing one otherwise; at child index 1.
    The source text afterwards is the old text with that text inserted at
    the start of the open brace. *)
Theorem insertImplements_creates_clause
    (st : ClassNode) (index : Z) (texts : TextOrTexts) (start : nat) :
  getImplements (heritageClauses st) = [] ->
  accepted index (implementsCount st) = true ->
  passesStringCheck texts = true ->
  textsOf texts <> [] ->
  openBraceToken st = Some start ->
  exists result st',
    let inserted :=
      ((if whitespaceBefore (fullText st) start then "" else " ")
         ++ "implements " ++ Text.join ", " (textsOf texts) ++ " ")%string in
    insertImplements host index texts st = Returned result st'
    /\ manipulations st'
       = manipulations st
         ++ [InsertIntoCreatableSyntaxList
               {| insertPos := start;
                  newText := inserted;
                  syntaxList :=
                    match heritageClauses st with
                    | [] => None
                    | _ :: _ => Some HeritageSyntaxList
                    end;
                  childIndex := 1;
                  insertItemsCount := 1 |}]
    /\ fullText st'
       = (substring 0 start (fullText st) ++ inserted
            ++ substring start (String.length (fullText st) - start) (fullText st))%string.
Proof.
  intros Hnone Hacc Hcheck Htexts Hbrace.
  assert (Hrun : forall length,
             exists result st',
               insertTexts host index (textsOf texts) length st = Returned result st'
               /\ manipulations st'
                  = manipulations st
                    ++ [InsertIntoCreatableSyntaxList
                          {| insertPos := start;
                             newText :=
                               implementsInsertText
                                 (whitespaceBefore (fullText st) start) (textsOf texts);
                             syntaxList :=
                               match heritageClauses st with
                               | [] => None
                               | _ :: _ => Some HeritageSyntaxList
                               end;
                             childIndex := 1;
                             insertItemsCount := 1 |}]
               /\ fullText st'
                  = Text.insertAt start
                      (implementsInsertText
                         (whitespaceBefore (fullText st) start) (textsOf texts))
                      (fullText st)).
  { intros length. do 2 eexists. split.
    - apply (insertTexts_none st index (textsOf texts) length start Hnone Hacc Hbrace).
    - split; reflexivity. }
  cbv zeta. rewrite <- implementsInsertText_spec.
  destruct texts as [text | [| t rest]].
  - destruct (Hrun 0) as (result & st' & Hr & Hm & Ht).
    exists result, st'. split; [|split; assumption].
    unfold insertImplements, bind, throwIfNotStringOrWhitespace.
    simpl in Hcheck. apply negb_true_iff in Hcheck. rewrite Hcheck.
    unfold ret at 1. exact Hr.
  - contradiction Htexts. reflexivity.
  - destruct (Hrun (List.length (t :: rest))) as (result & st' & Hr & Hm & Ht).
    exists result, st'. split; [|split; assumption]. exact Hr.
Qed.

(** The [length] argument of the body only selects the shape of the
    returned value: the node after the call and a thrown error do not
    depend on it. *)
Lemma insertTexts_length (st : ClassNode) (index : Z) (texts : list string)
    (length length' : nat) :
  match insertTexts host index texts length st with
  | Returned _ st' =>
      insertTexts host index texts length' st
      = Returned
          (getNodeOrNodesToReturn (getImplements (heritageClauses st'))
             (resolvedIndex index (implementsCount st)) length')
          st'
  | Threw e st' => insertTexts host index texts length' st = Threw e st'
  end.
Proof.
  rewrite !insertTexts_cases. cbv zeta.
  destruct (validIndex index (implementsCount st)); [|reflexivity].
  destruct (0 <? List.length (getImplements (heritageClauses st))); [reflexivity|].
  destruct (openBraceToken st); reflexivity.
Qed.

Lemma insertTexts_no_precondition_error (st : ClassNode) (index : Z)
    (texts : list string) (length : nat) :
  isPreconditionError (insertTexts host index texts length st) = false.
Proof.
  rewrite insertTexts_cases. cbv zeta.
  destruct (validIndex index (implementsCount st)); [|reflexivity].
  destruct (0 <? List.length (getImplements (heritageClauses st))); [reflexivity|].
  destruct (openBraceToken st); reflexivity.
Qed.

Lemma insertTexts_rejected (st : ClassNode) (index : Z) (texts : list string)
    (length : nat) :
  validIndex index (implementsCount st) = false ->
  insertTexts host index texts length st
  = Threw (InvalidIndexError index (implementsCount st)) st.
Proof.
  intros Hrej. rewrite insertTexts_cases. cbv zeta. rewrite Hrej. reflexivity.
Qed.

Lemma insertTexts_valid_no_index_error (st : ClassNode) (index : Z)
    (texts : list string) (length : nat) :
  validIndex index (implementsCount st) = true ->
  isInvalidIndexError (insertTexts host index texts length st) = false.
Proof.
  intros Hvalid. rewrite insertTexts_cases. cbv zeta. rewrite Hvalid.
  destruct (0 <? List.length (getImplements (heritageClauses st))); [reflexivity|].
  destruct (openBraceToken st); reflexivity.
Qed.

Lemma insertTexts_accepted_no_index_error (st : ClassNode) (index : Z)
    (texts : list string) (length : nat) :
  accepted index (implementsCount st) = true ->
  isInvalidIndexError (insertTexts host index texts length st) = false.
Proof.
  intros Hacc. apply insertTexts_valid_no_index_error.
  apply (accepted_validIndex _ _ Hacc).
Qed.

(** C3 (amended).  [addImplements(text)] is
    [insertImplements(getImplements().length, text)]: the same outcome, for
    either overload.  For a string that passes the string precondition, the
    string overload of [insertImplements] leaves the node exactly as the
    array overload does on the one-element array of that string (the same
    source text, tree and helper calls, or the same error), and returns the
    node at the index that the validation hands back (the given index, or a
    negative one counted from the end) where the array overload returns an
    array. *)
Theorem add_and_insert_overloads_agree
    (st : ClassNode) (index : Z) (texts : TextOrTexts) (text : string) :
  Text.isWhitespaceOnly text = false ->
  addImplements host texts st
  = insertImplements host (implementsCount st) texts st
  /\ match insertImplements host index (ManyTexts [text]) st with
     | Returned _ st' =>
         insertImplements host index (OneText text) st
         = Returned
             (OneNode
                (nth_error (getImplements (heritageClauses st'))
                   (Z.to_nat (resolvedIndex index (implementsCount st)))))
             st'
     | Threw e st' => insertImplements host index (OneText text) st = Threw e st'
     end.
Proof.
  intros Hcheck. split; [reflexivity|].
  unfold insertImplements, bind, throwIfNotStringOrWhitespace.
  rewrite Hcheck. unfold ret at 1. cbv zeta iota.
  exact (insertTexts_length st index [text] (List.length [text]) 0).
Qed.

(** C10.  The string overloads of [insertImplements] and [addImplements]
    throw the precondition error for the argument [texts], with the node
    untouched, when the string is empty or whitespace only; any other string
    passes the check and the insertion proceeds with the one-element array
    of that string. *)
Theorem string_overload_precondition (st : ClassNode) (index : Z) (text : string) :
  if Text.isWhitespaceOnly text
  then insertImplements host index (OneText text) st
       = Threw (ArgumentNullOrWhitespaceError "texts") st
       /\ addImplements host (OneText text) st
          = Threw (ArgumentNullOrWhitespaceError "texts") st
  else insertImplements host index (OneText text) st
       = insertTexts host index [text] 0 st
       /\ isPreconditionError (insertImplements host index (OneText text) st) = false
       /\ isPreconditionError (addImplements host (OneText text) st) = false.
Proof.
  assert (Hins : forall i,
             insertImplements host i (OneText text) st
             = if Text.isWhitespaceOnly text
               then Threw (ArgumentNullOrWhitespaceError "texts") st
               else insertTexts host i [text] 0 st).
  { intros i. unfold insertImplements, bind, throwIfNotStringOrWhitespace.
    destruct (Text.isWhitespaceOnly text); reflexivity. }
  assert (Hadd : addImplements host (OneText text) st
                 = insertImplements host (implementsCount st) (OneText text) st)
    by reflexivity.
  rewrite Hadd, !Hins.
  destruct (Text.isWhitespaceOnly text).
  - split; reflexivity.
  - split; [reflexivity|].
    split; apply insertTexts_no_precondition_error.
Qed.

End InsertImplements.

(* ================================================================== *)
(** ** removeImplements *)

Section RemoveImplements.

Variable host : Host.

Ltac run_removeImplements :=
  cbv [removeImplements bind thisGetImplements getHeritageClauses ret throw
       getImplementsFromIndex verifyAndGetIndex].

Lemma removeImplements_none (st : ClassNode) (arg : NodeOrIndex) :
  getImplements (heritageClauses st) = [] ->
  removeImplements host arg st
  = Threw (InvalidOperationError "Cannot remove an implements when none exist.") st.
Proof.
  intros Hnone. run_removeImplements. rewrite Hnone. reflexivity.
Qed.

(** [removeImplements] on a node with implements types, by cases. *)
Lemma removeImplements_cases (st : ClassNode) (arg : NodeOrIndex)
    (first : ExpressionWithTypeArguments)
    (others : list ExpressionWithTypeArguments) :
  getImplements (heritageClauses st) = first :: others ->
  removeImplements host arg st
  = let last := (Z.of_nat (List.length (first :: others)) - 1)%Z in
    let remove (target : option ExpressionWithTypeArguments) :=
      match others with
      | [] =>
          match heritageClauses st with
          | [_] =>
              Returned This
                (outcomeState
                   (removeChildren host
                      {| children := [HeritageSyntaxList];
                         removePrecedingSpaces := true |} st))
          | _ =>
              match getImplementsHeritageClause (heritageClauses st) with
              | Some c =>
                  Returned This
                    (outcomeState
                       (removeChildren host
                          {| children := [HeritageClauseRef c];
                             removePrecedingSpaces := true |} st))
              | None => Threw UndefinedNodeError st
              end
          end
      | _ :: _ =>
          match target with
          | Some node =>
              Returned This
                (outcomeState
                   (removeCommaSeparatedChild host node
                      (negb (sameNode node first)) st))
          | None => Threw UndefinedNodeError st
          end
      end in
    match arg with
    | ByIndex index =>
        if validIndex index last
        then remove (nth_error (first :: others) (Z.to_nat (resolvedIndex index last)))
        else Threw (InvalidIndexError index last) st
    | ByNode node => remove (Some node)
    end.
Proof.
  intros Hnodes. cbv zeta.
  cbv [removeImplements bind thisGetImplements getHeritageClauses ret throw
       getImplementsFromIndex].
  rewrite Hnodes.
  change (List.length (first :: others) =? 0) with false. cbv iota.
  destruct arg as [index | node].
  - rewrite verifyAndGetIndex_cases.
    destruct (validIndex index (Z.of_nat (List.length (first :: others)) - 1));
      [|reflexivity].
    destruct others as [|second rest].
    + change (List.length [first] =? 1) with true. cbv iota beta.
      destruct (heritageClauses st) as [|c1 [|c2 cs]]; try reflexivity;
        destruct (getImplementsHeritageClause _); reflexivity.
    + change (List.length (first :: second :: rest) =? 1) with false. cbv iota beta.
      destruct (nth_error (first :: second :: rest) _); reflexivity.
  - destruct others as [|second rest].
    + change (List.length [first] =? 1) with true. cbv iota beta.
      destruct (heritageClauses st) as [|c1 [|c2 cs]]; try reflexivity;
        destruct (getImplementsHeritageClause _); reflexivity.
    + reflexivity.
Qed.

Lemma removeImplements_rejected (st : ClassNode) (index : Z) :
  getImplements (heritageClauses st) <> [] ->
  validIndex index (implementsCount st - 1) = false ->
  removeImplements host (ByIndex index) st
  = Threw (InvalidIndexError index (implementsCount st - 1)) st.
Proof.
  intros Hne Hrej. unfold implementsCount in *.
  destruct (getImplements (heritageClauses st)) as [|first others] eqn:Hnodes.
  - contradiction Hne. reflexivity.
  - rewrite (removeImplements_cases st (ByIndex index) first others Hnodes).
    cbv zeta. rewrite Hrej. reflexivity.
Qed.



(** For a removal by index from a list of distinct nodes, the target is the
    first implements node exactly when the index is [0]. *)
Lemma sameNode_first_iff_index_zero
    (nodes : list ExpressionWithTypeArguments) (index : nat)
    (target first : ExpressionWithTypeArguments) :
  NoDup (map nodeId nodes) ->
  nth_error nodes index = Some target ->
  nth_error nodes 0 = Some first ->
  sameNode target first = true <-> index = 0.
Proof.
  intros Hnodup Htarget Hfirst. unfold sameNode. rewrite Nat.eqb_eq. split.
  - intros Hid.
    assert (Hi : nth_error (map nodeId nodes) index = Some (nodeId target))
      by (rewrite nth_error_map, Htarget; reflexivity).
    assert (H0 : nth_error (map nodeId nodes) 0 = Some (nodeId first))
      by (rewrite nth_error_map, Hfirst; reflexivity).
    rewrite Hid in Hi. rewrite <- H0 in Hi.
    pose proof (proj1 (NoDup_nth_error (map nodeId nodes)) Hnodup index 0) as Hinj.
    apply Hinj; [|exact Hi].
    apply nth_error_Some. rewrite Hi, H0. discriminate.
  - intros ->. rewrite Hfirst in Htarget. injection Htarget as ->. reflexivity.
Qed.

Lemma validIndex_resolved_range (index length : Z) :
  validIndex index length = true ->
  (0 <= resolvedIndex index length <= length)%Z.
Proof.
  intros Hvalid. apply validIndex_spec in Hvalid. unfold resolvedIndex.
  destruct (index <? 0)%Z eqn:Hneg;
    [apply Z.ltb_lt in Hneg | apply Z.ltb_ge in Hneg]; lia.
Qed.

(** A call whose argument names an implements node returns the receiver. *)
Lemma removeImplements_named (st : ClassNode) (arg : NodeOrIndex)
    (target : ExpressionWithTypeArguments) :
  namedTarget arg (getImplements (heritageClauses st)) = Some target ->
  exists st', removeImplements host arg st = Returned This st'.
Proof.
  intros Hnamed.
  destruct (getImplements (heritageClauses st)) as [|first others] eqn:Hnodes.
  - destruct arg as [index | node]; [|discriminate Hnamed].
    unfold namedTarget in Hnamed. cbv zeta in Hnamed.
    destruct (validIndex index (Z.of_nat (@List.length ExpressionWithTypeArguments []) - 1))
      eqn:Hvalid; [|discriminate Hnamed].
    apply validIndex_spec in Hvalid. simpl in Hvalid. lia.
  - assert (Hne : getImplements (heritageClauses st) <> [])
      by (rewrite Hnodes; discriminate).
    destruct (getImplements_nonempty_clause _ Hne) as (c & Hc & _).
    rewrite (removeImplements_cases st arg first others Hnodes). cbv zeta.
    rewrite Hc.
    destruct arg as [index | node]; unfold namedTarget in Hnamed; cbv zeta in Hnamed.
    + destruct (validIndex index (Z.of_nat (List.length (first :: others)) - 1));
        [|discriminate Hnamed].
      rewrite Hnamed.
      destruct others as [|second rest]; [|eexists; reflexivity].
      destruct (heritageClauses st) as [|c1 [|c2 cs]]; eexists; reflexivity.
    + destruct others as [|second rest]; [|eexists; reflexivity].
      destruct (heritageClauses st) as [|c1 [|c2 cs]]; eexists; reflexivity.
Qed.

(** C5 (amended).  Without implements types, either overload of
    [removeImplements] throws the [InvalidOperationError] with the message
    below and leaves the node untouched.  With at least one implements type,
    the call returns the receiver when its argument is an index that the
    index validation lets pass or one of the implements nodes. *)
Theorem removeImplements_outcome (st : ClassNode) (arg : NodeOrIndex) :
  (getImplements (heritageClauses st) = [] ->
     removeImplements host arg st
     = Threw (InvalidOperationError "Cannot remove an implements when none exist.") st)
  /\ (forall target,
        namedTarget arg (getImplements (heritageClauses st)) = Some target ->
        exists st', removeImplements host arg st = Returned This st').
Proof.
  split.
  - apply removeImplements_none.
  - apply removeImplements_named.
Qed.

(** C4 (amended).  Called with anything but the empty array,
    [insertImplements] checks the index against the number of implements
    types: [0] through the count pass the index validation, and so do the
    negative indices down to minus the count, which count from the end; any
    other index raises an error and leaves the node untouched.
    [removeImplements] with an index checks it against the count minus one:
    [0] through [count - 1] and the negative indices down to [1 - count]
    are accepted and the call returns the receiver, any other index raises
    an error and leaves the node untouched. *)
Theorem index_validation (st : ClassNode) (index : Z) (texts : TextOrTexts) :
  texts <> ManyTexts [] ->
  ((- implementsCount st <= index <= implementsCount st)%Z ->
     isInvalidIndexError (insertImplements host index texts st) = false)
  /\ (~ (- implementsCount st <= index <= implementsCount st)%Z ->
        exists e, insertImplements host index texts st = Threw e st)
  /\ ((- (implementsCount st - 1) <= index <= implementsCount st - 1)%Z ->
        exists st', removeImplements host (ByIndex index) st = Returned This st')
  /\ (~ (- (implementsCount st - 1) <= index <= implementsCount st - 1)%Z ->
        exists e, removeImplements host (ByIndex index) st = Threw e st).
Proof.
  intros Hnonempty.
  assert (Hinsert :
    insertImplements host index texts st
    = if negb (passesStringCheck texts)
      then Threw (ArgumentNullOrWhitespaceError "texts") st
      else insertTexts host index (textsOf texts)
             match texts with OneText _ => 0 | ManyTexts l => List.length l end st).
  { destruct texts as [text | [| t rest]].
    - unfold insertImplements, bind, throwIfNotStringOrWhitespace. simpl.
      destruct (Text.isWhitespaceOnly text); reflexivity.
    - contradiction Hnonempty. reflexivity.
    - reflexivity. }
  split; [|split; [|split]].
  - intros Hin. apply validIndex_spec in Hin. rewrite Hinsert.
    destruct (negb (passesStringCheck texts)); [reflexivity|].
    apply insertTexts_valid_no_index_error. exact Hin.
  - intros Hout. rewrite Hinsert.
    destruct (negb (passesStringCheck texts)); [eexists; reflexivity|].
    eexists. apply insertTexts_rejected.
    destruct (validIndex index (implementsCount st)) eqn:Hvalid; [|reflexivity].
    apply validIndex_spec in Hvalid. contradiction.
  - intros Hin.
    assert (Hvalid : validIndex index (implementsCount st - 1) = true)
      by (apply validIndex_spec; exact Hin).
    pose proof (validIndex_resolved_range _ _ Hvalid) as Hrange.
    destruct (nth_error (getImplements (heritageClauses st))
                (Z.to_nat (resolvedIndex index (implementsCount st - 1))))
      as [target|] eqn:Hnth.
    + apply (removeImplements_named st (ByIndex index) target).
      unfold namedTarget. cbv zeta. fold (implementsCount st).
      rewrite Hvalid. exact Hnth.
    + apply nth_error_None in Hnth. unfold implementsCount in *. lia.
  - intros Hout.
    destruct (getImplements (heritageClauses st)) as [|first others] eqn:Hnodes.
    + eexists. apply removeImplements_none. exact Hnodes.
    + eexists. apply removeImplements_rejected.
      * rewrite Hnodes. discriminate.
      * destruct (validIndex index (implementsCount st - 1)) eqn:Hvalid; [|reflexivity].
        apply validIndex_spec in Hvalid. contradiction.
Qed.

End RemoveImplements.

(* ================================================================== *)
(** ** printText *)

Lemma string_append_assoc (a b c : string) :
  ((a ++ b) ++ c)%string = (a ++ b ++ c)%string.
Proof.
  induction a as [|ch a IH]; simpl.
  - reflexivity.
  - rewrite IH. reflexivity.
Qed.

Ltac normalize_text :=
  repeat first [rewrite string_append_assoc | progress simpl].

Section PrintText.

Context {JSDocStructure DecoratorStructure : Type}.
Context {TypeParameterDeclarationStructure ParameterDeclarationStructure : Type}.
Context {Rest : Type}.

Abbreviation Structure :=
  (@GetAccessorDeclarationStructure JSDocStructure DecoratorStructure
     TypeParameterDeclarationStructure ParameterDeclarationStructure Rest).
Abbreviation Pieces :=
  (@Recorder JSDocStructure DecoratorStructure
     TypeParameterDeclarationStructure ParameterDeclarationStructure Rest).
Abbreviation TextFragments :=
  (@Fragments JSDocStructure DecoratorStructure
     TypeParameterDeclarationStructure ParameterDeclarationStructure Rest).

Lemma printTextRecorded_pieces (options : Options) (writer : Pieces)
    (structure : Structure) :
  printTextRecorded options writer structure
  = writer ++ headPieces structure
      ++ (if isAmbient options || truthy (isAbstract structure)
          then [Written ";"]
          else [SpaceIfLastNot; InlineBlock [BodyText options structure]]).
Proof.
  unfold printTextRecorded, printText, headPieces.
  destruct (isAmbient options || truthy (isAbstract structure)); simpl;
    repeat rewrite <- app_assoc; reflexivity.
Qed.

Lemma printTextAsText_text (f : TextFragments) (options : Options)
    (writer : string) (structure : Structure) :
  printTextAsText f options writer structure
  = let head := (writer ++ headText f structure)%string in
    if isAmbient options || truthy (isAbstract structure)
    then (head ++ ";")%string
    else ((if endsWithSpace head then head else head ++ " ")
            ++ block f (bodyText f options structure))%string.
Proof.
  cbv zeta. unfold printTextAsText, printText, headText.
  destruct (isAmbient options || truthy (isAbstract structure));
    normalize_text; reflexivity.
Qed.

Lemma ambient_or_abstract (options : Options) (structure : Structure) :
  isAmbient options || truthy (isAbstract structure) = true
  <-> isAmbient options = true \/ isAbstract structure = Some true.
Proof.
  rewrite orb_true_iff. unfold truthy.
  destruct (isAbstract structure) as [[|]|]; intuition (congruence || discriminate).
Qed.

(** C7.  [printText] writes, after what the writer already holds, the
    documentation comments, the decorators, the modifiers, the text ["get "]
    followed by the name, the type parameters in brackets, ["("], the
    parameters, [")"], the return type, and last the terminator or the body;
    nothing else and in this order.  With printers that contribute text
    fragments, the text written is the concatenation of the fragments in the
    same order. *)
Theorem printText_fixed_order (options : Options) (structure : Structure) :
  (forall writer : Pieces,
      exists last,
        printTextRecorded options writer structure
        = writer
            ++ [ Docs (docs structure);
                 Decorators (decorators structure);
                 Modifiers structure;
                 Written ("get " ++ name structure)%string;
                 TypeParametersWithBrackets (typeParameters structure);
                 Written "(";
                 Parameters (parameters structure);
                 Written ")";
                 ReturnType structure ]
            ++ last
        /\ (last = [Written ";"]
            \/ last = [SpaceIfLastNot;
                       InlineBlock [BodyText options structure]]))
  /\ (forall (f : TextFragments) (writer : string),
        exists last,
          printTextAsText f options writer structure
          = (writer ++ docsText f (docs structure)
               ++ decoratorsText f (decorators structure)
               ++ modifiersText f structure
               ++ "get " ++ name structure
               ++ typeParametersText f (typeParameters structure)
               ++ "(" ++ parametersText f (parameters structure) ++ ")"
               ++ returnTypeText f structure ++ last)%string).
Proof.
  split.
  - intros writer. rewrite printTextRecorded_pieces.
    fold (headPieces structure).
    destruct (isAmbient options || truthy (isAbstract structure));
      eexists; split; try reflexivity; auto.
  - intros f writer.
    unfold printTextAsText, printText.
    destruct (isAmbient options || truthy (isAbstract structure)); simpl.
    + exists ";"%string. normalize_text. reflexivity.
    + match goal with
      | |- context [if endsWithSpace ?w then _ else _] =>
          destruct (endsWithSpace w)
      end.
      * eexists. normalize_text. reflexivity.
      * eexists. normalize_text. reflexivity.
Qed.

(** C8.  [printText] ends with the text [";"] and writes no block exactly
    when the printer is ambient or the structure is abstract; otherwise, and
    only then, it ends with [spaceIfLastNot] followed by an inline block
    whose content is what the body-text printer writes.  As text: the head
    of the declaration and [";"], or the head, a space unless the head ends
    with one, and the block around the body text. *)
Theorem printText_terminator (options : Options) (structure : Structure)
    (writer : Pieces) :
  (printTextRecorded options writer structure
   = writer ++ headPieces structure ++ [Written ";"]
   <-> isAmbient options = true \/ isAbstract structure = Some true)
  /\ (printTextRecorded options writer structure
      = writer ++ headPieces structure
          ++ [SpaceIfLastNot; InlineBlock [BodyText options structure]]
      <-> ~ (isAmbient options = true \/ isAbstract structure = Some true))
  /\ (forall (f : TextFragments) (text : string),
        printTextAsText f options text structure
        = let head := (text ++ headText f structure)%string in
          if isAmbient options || truthy (isAbstract structure)
          then (head ++ ";")%string
          else ((if endsWithSpace head then head else head ++ " ")
                  ++ block f (bodyText f options structure))%string).
Proof.
  split; [|split].
  - rewrite printTextRecorded_pieces, <- ambient_or_abstract.
    destruct (isAmbient options || truthy (isAbstract structure)).
    + split; auto.
    + split; [|discriminate].
      intros H. apply app_inv_head in H. apply app_inv_head in H. discriminate H.
  - rewrite printTextRecorded_pieces, <- ambient_or_abstract.
    destruct (isAmbient options || truthy (isAbstract structure)).
    + split.
      * intros H. apply app_inv_head in H. apply app_inv_head in H. discriminate H.
      * intros H. contradiction H. reflexivity.
    + split; [discriminate | reflexivity].
  - intros f text. apply printTextAsText_text.
Qed.

End PrintText.

(* ================================================================== *)
(** ** The statements on concrete nodes *)



(** C2, at [class C {}]: with the empty array nothing is inserted, and with
    an index that the validation rejects the call throws. *)
Lemma insertImplements_without_insertion :
  getImplements (heritageClauses bareClass) = []
  /\ insertImplements exampleHost 0 (ManyTexts []) bareClass
     = Returned (ManyNodes []) bareClass
  /\ insertImplements exampleHost 1 (ManyTexts ["X"]) bareClass
     = Threw (InvalidIndexError 1 0) bareClass
  /\ fullText bareClass = "class C {}"
  /\ manipulations bareClass = [].
Proof. repeat split. Qed.

(** C2 (amended), at [class C{}], where the character before the open brace
    is not whitespace. *)
Lemma insertImplements_creates_clause_witness :
  getImplements (heritageClauses tightClass) = []
  /\ accepted 0 (implementsCount tightClass) = true
  /\ passesStringCheck (ManyTexts ["X"; "Y"]) = true
  /\ textsOf (ManyTexts ["X"; "Y"]) <> []
  /\ openBraceToken tightClass = Some 7
  /\ exists result st',
       insertImplements exampleHost 0 (ManyTexts ["X"; "Y"]) tightClass
       = Returned result st'
       /\ manipulations st'
          = [InsertIntoCreatableSyntaxList
               {| insertPos := 7;
                  newText := " implements X, Y ";
                  syntaxList := None;
                  childIndex := 1;
                  insertItemsCount := 1 |}]
       /\ fullText st' = "class C implements X, Y {}".
Proof.
  assert (H1 : getImplements (heritageClauses tightClass) = []) by reflexivity.
  assert (H2 : accepted 0 (implementsCount tightClass) = true) by reflexivity.
  assert (H3 : passesStringCheck (ManyTexts ["X"; "Y"]) = true) by reflexivity.
  assert (H4 : textsOf (ManyTexts ["X"; "Y"]) <> []) by discriminate.
  assert (H5 : openBraceToken tightClass = Some 7) by reflexivity.
  repeat (split; [assumption|]).
  destruct (insertImplements_creates_clause exampleHost tightClass 0
              (ManyTexts ["X"; "Y"]) 7 H1 H2 H3 H4 H5)
    as (result & st' & Hrun & Hcalls & Htext).
  exists result, st'. split; [exact Hrun|]. split.
  - rewrite Hcalls. reflexivity.
  - rewrite Htext. reflexivity.
Defined.

(** C3, at [class C {}] with a blank string: the string overload throws and
    makes no edit, the array overload on the one-element array of the same
    string inserts a clause. *)
Lemma string_and_array_overloads_differ :
  insertImplements exampleHost 0 (OneText " ") bareClass
  = Threw (ArgumentNullOrWhitespaceError "texts") bareClass
  /\ hasThrown (insertImplements exampleHost 0 (ManyTexts [" "]) bareClass) = false
  /\ fullText (outcomeState (insertImplements exampleHost 0 (ManyTexts [" "]) bareClass))
     = "class C implements   {}"
  /\ fullText (outcomeState (insertImplements exampleHost 0 (OneText " ") bareClass))
     = "class C {}".
Proof. repeat split. Qed.

(** C3 (amended), at [class C implements A, B {}] with the string ["X"]. *)
Lemma add_and_insert_overloads_agree_witness :
  Text.isWhitespaceOnly "X" = false
  /\ addImplements exampleHost (OneText "X") twiceImplementingClass
     = insertImplements exampleHost 2 (OneText "X") twiceImplementingClass
  /\ outcomeState (insertImplements exampleHost 1 (OneText "X") twiceImplementingClass)
     = outcomeState (insertImplements exampleHost 1 (ManyTexts ["X"]) twiceImplementingClass).
Proof.
  assert (H : Text.isWhitespaceOnly "X" = false) by reflexivity.
  split; [exact H|].
  destruct (add_and_insert_overloads_agree exampleHost twiceImplementingClass 1
              (OneText "X") "X" H) as [Hadd Hsame].
  split; [exact Hadd|].
  destruct (insertImplements exampleHost 1 (ManyTexts ["X"]) twiceImplementingClass);
    rewrite Hsame; reflexivity.
Defined.

(** C4, at [class C {}] and [class C implements A, B {}]: the index [7]
    is outside [0..0], yet with the empty array [insertImplements] raises
    no error; the index [-1] is outside [0..2] and outside [0..1], yet
    [insertImplements] inserts in front of the last implements type and
    [removeImplements] removes one. *)
Lemma index_outside_range_without_error :
  (~ (0 <= 7 <= implementsCount bareClass)%Z
   /\ insertImplements exampleHost 7 (ManyTexts []) bareClass
      = Returned (ManyNodes []) bareClass)
  /\ (~ (0 <= -1 <= implementsCount twiceImplementingClass)%Z
      /\ hasThrown
           (insertImplements exampleHost (-1) (ManyTexts ["X"]) twiceImplementingClass)
         = false
      /\ getImplements
           (heritageClauses
              (outcomeState
                 (insertImplements exampleHost (-1) (ManyTexts ["X"])
                    twiceImplementingClass)))
         = [typeA; {| nodeId := 3; nodeText := "X" |}; typeB])
  /\ (~ (0 <= -1 <= implementsCount twiceImplementingClass - 1)%Z
      /\ hasThrown (removeImplements exampleHost (ByIndex (-1)) twiceImplementingClass)
         = false
      /\ getImplements
           (heritageClauses
              (outcomeState
                 (removeImplements exampleHost (ByIndex (-1)) twiceImplementingClass)))
         = [typeB]).
Proof.
  repeat split; try reflexivity; unfold implementsCount; simpl; lia.
Qed.

(** C4 (amended), at [class C implements A, B {}]: the indices [2] and
    [-2] are accepted by [insertImplements]; [removeImplements] accepts
    [-1] and rejects [2] and [-2]. *)
Lemma index_validation_witness :
  ManyTexts ["X"] <> ManyTexts []
  /\ isInvalidIndexError
       (insertImplements exampleHost 2 (ManyTexts ["X"]) twiceImplementingClass) = false
  /\ isInvalidIndexError
       (insertImplements exampleHost (-2) (ManyTexts ["X"]) twiceImplementingClass) = false
  /\ (exists st',
        removeImplements exampleHost (ByIndex (-1)) twiceImplementingClass
        = Returned This st')
  /\ (exists e,
        removeImplements exampleHost (ByIndex 2) twiceImplementingClass
        = Threw e twiceImplementingClass)
  /\ (exists e,
        removeImplements exampleHost (ByIndex (-2)) twiceImplementingClass
        = Threw e twiceImplementingClass).
Proof.
  assert (H : ManyTexts ["X"] <> ManyTexts []) by discriminate.
  split; [exact H|].
  destruct (index_validation exampleHost twiceImplementingClass 2 (ManyTexts ["X"]) H)
    as (Hin2 & _ & _ & Hout2).
  destruct (index_validation exampleHost twiceImplementingClass (-2) (ManyTexts ["X"]) H)
    as (Hin_2 & _ & _ & Hout_2).
  destruct (index_validation exampleHost twiceImplementingClass (-1) (ManyTexts ["X"]) H)
    as (_ & _ & Hin_1 & _).
  split; [|split; [|split; [|split]]].
  - apply Hin2. unfold implementsCount. simpl. lia.
  - apply Hin_2. unfold implementsCount. simpl. lia.
  - apply Hin_1. unfold implementsCount. simpl. lia.
  - apply Hout2. unfold implementsCount. simpl. lia.
  - apply Hout_2. unfold implementsCount. simpl. lia.
Defined.

(** C5, at [class C implements A {}]: an implements type exists, yet
    [removeImplements(3)] throws. *)
Lemma removeImplements_rejected_index_throws :
  getImplements (heritageClauses implementingClass) <> []
  /\ removeImplements exampleHost (ByIndex 3) implementingClass
     = Threw (InvalidIndexError 3 0) implementingClass.
Proof. split; [discriminate | reflexivity]. Qed.

(** C5 (amended), at [class C {}] and [class C implements A, B {}]: no
    implements type to remove; removal by the index [-1] and by the node
    [B]. *)
Lemma removeImplements_outcome_witness :
  getImplements (heritageClauses bareClass) = []
  /\ removeImplements exampleHost (ByIndex 0) bareClass
     = Threw (InvalidOperationError "Cannot remove an implements when none exist.")
         bareClass
  /\ namedTarget (ByIndex (-1)) (getImplements (heritageClauses twiceImplementingClass))
     = Some typeA
  /\ (exists st',
        removeImplements exampleHost (ByIndex (-1)) twiceImplementingClass
        = Returned This st')
  /\ namedTarget (ByNode typeB) (getImplements (heritageClauses twiceImplementingClass))
     = Some typeB
  /\ (exists st',
        removeImplements exampleHost (ByNode typeB) twiceImplementingClass
        = Returned This st').
Proof.
  assert (H1 : getImplements (heritageClauses bareClass) = []) by reflexivity.
  assert (H2 : namedTarget (ByIndex (-1))
                 (getImplements (heritageClauses twiceImplementingClass))
               = Some typeA) by reflexivity.
  assert (H3 : namedTarget (ByNode typeB)
                 (getImplements (heritageClauses twiceImplementingClass))
               = Some typeB) by reflexivity.
  split; [exact H1|]. split.
  - exact (proj1 (removeImplements_outcome exampleHost bareClass (ByIndex 0)) H1).
  - split; [exact H2|]. split.
    + exact (proj2 (removeImplements_outcome exampleHost twiceImplementingClass
                      (ByIndex (-1))) typeA H2).
    + split; [exact H3|].
      exact (proj2 (removeImplements_outcome exampleHost twiceImplementingClass
                      (ByNode typeB)) typeB H3).
Defined.


(* ================================================================== *)
(** ** Further properties of the implements methods *)

(** [getImplements] reads the first clause with the [implements] keyword
    and nothing else: [extends] clauses in front of it are skipped, clauses
    after it are not looked at, and without such a clause the result is
    empty. *)
Theorem getImplements_reads_first_implements_clause
    (front : list HeritageClause) :
  Forall (fun c => token c = ExtendsKeyword) front ->
  getImplements front = []
  /\ forall c back,
       token c = ImplementsKeyword ->
       getImplementsHeritageClause (front ++ c :: back) = Some c
       /\ getImplements (front ++ c :: back) = types c.
Proof.
  intros Hfront. unfold getImplements, getImplementsHeritageClause.
  induction Hfront as [|c' front Hc' _ IH]; simpl.
  - split; [reflexivity|]. intros c back Hc. rewrite Hc. split; reflexivity.
  - rewrite Hc'. simpl. exact IH.
Qed.

Lemma getImplements_reads_first_implements_clause_witness :
  Forall (fun c => token c = ExtendsKeyword) (heritageClauses extendingClass)
  /\ getImplements (heritageClauses extendingClass) = []
  /\ getImplements (heritageClauses extendingImplementingClass) = [typeA].
Proof.
  assert (H : Forall (fun c => token c = ExtendsKeyword)
                (heritageClauses extendingClass))
    by (repeat constructor).
  split; [exact H|].
  destruct (getImplements_reads_first_implements_clause _ H) as [Hnone Hfirst].
  split; [exact Hnone|].
  exact (proj2 (Hfirst {| clauseId := 0; token := ImplementsKeyword; types := [typeA] |}
                  [] eq_refl)).
Defined.

Section MoreInsertImplements.

Variable host : Host.

Lemma insertImplements_cases (st : ClassNode) (index : Z) (texts : TextOrTexts) :
  insertImplements host index texts st
  = match texts with
    | OneText text =>
        if Text.isWhitespaceOnly text
        then Threw (ArgumentNullOrWhitespaceError "texts") st
        else insertTexts host index [text] 0 st
    | ManyTexts [] => Returned (ManyNodes []) st
    | ManyTexts l => insertTexts host index l (List.length l) st
    end.
Proof.
  destruct texts as [text | [| t rest]]; try reflexivity.
  unfold insertImplements, bind, throwIfNotStringOrWhitespace.
  destruct (Text.isWhitespaceOnly text); reflexivity.
Qed.

Lemma addImplements_as_insert (st : ClassNode) (texts : TextOrTexts) :
  addImplements host texts st
  = insertImplements host (implementsCount st) texts st.
Proof. reflexivity. Qed.

Lemma accepted_count (st : ClassNode) :
  accepted (implementsCount st) (implementsCount st) = true.
Proof. apply accepted_spec. unfold implementsCount. lia. Qed.

Lemma insertTexts_throws_unchanged (st : ClassNode) (index : Z)
    (texts : list string) (length : nat) (e : Error) (st' : ClassNode) :
  insertTexts host index texts length st = Threw e st' -> st' = st.
Proof.
  rewrite insertTexts_cases. cbv zeta.
  destruct (validIndex index (implementsCount st)).
  - destruct (0 <? List.length (getImplements (heritageClauses st))).
    + discriminate.
    + destruct (openBraceToken st); [discriminate|].
      intros H. injection H as _ <-. reflexivity.
  - intros H. injection H as _ <-. reflexivity.
Qed.

(** The index that [addImplements] passes on is always one that the index
    validation accepts: whatever the node and the argument, [addImplements]
    never raises the invalid-index error. *)
Theorem addImplements_index_always_accepted (st : ClassNode) (texts : TextOrTexts) :
  isInvalidIndexError (addImplements host texts st) = false.
Proof.
  rewrite addImplements_as_insert, insertImplements_cases.
  destruct texts as [text | [| t rest]].
  - destruct (Text.isWhitespaceOnly text); [reflexivity|].
    apply insertTexts_accepted_no_index_error, accepted_count.
  - reflexivity.
  - apply insertTexts_accepted_no_index_error, accepted_count.
Qed.

(** [insertImplements] and [addImplements] raise their errors before any
    edit: whenever one of them throws, the node is exactly as before the
    call (source text, tree and helper calls). *)
Theorem insert_and_add_throw_before_editing
    (st : ClassNode) (index : Z) (texts : TextOrTexts) (e : Error) (st' : ClassNode) :
  (insertImplements host index texts st = Threw e st' -> st' = st)
  /\ (addImplements host texts st = Threw e st' -> st' = st).
Proof.
  assert (Hinsert : forall i,
             insertImplements host i texts st = Threw e st' -> st' = st).
  { intros i. rewrite insertImplements_cases.
    destruct texts as [text | [| t rest]].
    - destruct (Text.isWhitespaceOnly text).
      + intros H. injection H as _ <-. reflexivity.
      + apply insertTexts_throws_unchanged.
    - discriminate.
    - apply insertTexts_throws_unchanged. }
  split; [apply Hinsert|].
  rewrite addImplements_as_insert. apply Hinsert.
Qed.

(** On a node with at least one implements type, [addImplements] with texts
    that pass the string precondition appends: the implements list
    afterwards is the old list followed by one new node per text, and the
    new nodes are what the call returns (the node itself for a string). *)
Theorem addImplements_appends (st : ClassNode) (texts : TextOrTexts) :
  getImplements (heritageClauses st) <> [] ->
  passesStringCheck texts = true ->
  exists st',
    let created := freshNodes (nextId st) (textsOf texts) in
    addImplements host texts st
    = Returned
        match texts with
        | OneText _ => OneNode (hd_error created)
        | ManyTexts _ => ManyNodes created
        end st'
    /\ getImplements (heritageClauses st')
       = getImplements (heritageClauses st) ++ created
    /\ map nodeText created = textsOf texts.
Proof.
  intros Hne Hcheck. cbv zeta.
  assert (Hindex : Z.to_nat (implementsCount st)
                   = List.length (getImplements (heritageClauses st)))
    by (unfold implementsCount; apply Nat2Z.id).
  assert (Hsplice : forall (created old : list ExpressionWithTypeArguments),
             splice (List.length old) created old = old ++ created).
  { intros created old. unfold splice.
    rewrite firstn_all, skipn_all, app_nil_r. reflexivity. }
  rewrite addImplements_as_insert, insertImplements_cases.
  destruct texts as [text | [| t rest]].
  - simpl in Hcheck. apply negb_true_iff in Hcheck. rewrite Hcheck.
    destruct (insertTexts_existing host st (implementsCount st) [text] 0 Hne
                (accepted_count st)) as (Hrun & Hupd & _).
    rewrite Hindex, Hsplice in Hupd.
    eexists. split; [|split; [exact Hupd | apply map_nodeText_freshNodes]].
    rewrite Hrun. f_equal. unfold getNodeOrNodesToReturn. simpl Nat.ltb. cbv iota.
    rewrite Hupd, Hindex. f_equal.
    rewrite nth_error_app2 by lia. rewrite Nat.sub_diag. reflexivity.
  - exists st. simpl. rewrite app_nil_r. repeat split; reflexivity.
  - destruct (insertTexts_existing host st (implementsCount st) (t :: rest)
                (List.length (t :: rest)) Hne (accepted_count st))
      as (Hrun & Hupd & _).
    rewrite Hindex, Hsplice in Hupd.
    eexists. split; [|split; [exact Hupd | apply map_nodeText_freshNodes]].
    rewrite Hrun. f_equal. unfold getNodeOrNodesToReturn.
    change (0 <? List.length (t :: rest)) with true. cbv iota.
    rewrite Hupd, Hindex. f_equal.
    rewrite skipn_app, skipn_all, Nat.sub_diag. simpl skipn.
    rewrite <- (length_freshNodes (nextId st) (t :: rest)).
    apply firstn_all.
Qed.

(** Without implements types and without an open brace token, a call with
    at least one text that passes the string precondition always throws and
    leaves the node untouched; the index is validated first, so a rejected
    index is reported as such and only an accepted one reaches the missing
    brace. *)
Theorem insertImplements_without_open_brace
    (st : ClassNode) (index : Z) (texts : TextOrTexts) :
  getImplements (heritageClauses st) = [] ->
  openBraceToken st = None ->
  passesStringCheck texts = true ->
  textsOf texts <> [] ->
  insertImplements host index texts st
  = if accepted index 0
    then Threw ChildOfKindNotFoundError st
    else Threw (InvalidIndexError index 0) st.
Proof.
  intros Hnone Hbrace Hcheck Htexts.
  assert (Hcount : implementsCount st = 0%Z)
    by (unfold implementsCount; rewrite Hnone; reflexivity).
  assert (Hbody : forall l n,
             insertTexts host index l n st
             = if accepted index 0
               then Threw ChildOfKindNotFoundError st
               else Threw (InvalidIndexError index 0) st).
  { intros l n. rewrite insertTexts_cases. cbv zeta.
    rewrite Hcount, Hnone, Hbrace.
    replace (validIndex index 0) with (accepted index 0); [reflexivity|].
    unfold validIndex, accepted. reflexivity. }
  rewrite insertImplements_cases.
  destruct texts as [text | [| t rest]].
  - simpl in Hcheck. apply negb_true_iff in Hcheck. rewrite Hcheck. apply Hbody.
  - contradiction Htexts. reflexivity.
  - apply Hbody.
Qed.

End MoreInsertImplements.

Section MoreRemoveImplements.

Variable host : Host.

(** What [removeImplements] does once its argument designates [target]:
    the result depends on the node and the target only. *)
Lemma removeImplements_with_target (st : ClassNode) (arg : NodeOrIndex)
    (target first : ExpressionWithTypeArguments)
    (others : list ExpressionWithTypeArguments) :
  getImplements (heritageClauses st) = first :: others ->
  targetOf arg (first :: others) = Some target ->
  removeImplements host arg st
  = match others with
    | [] =>
        match heritageClauses st with
        | [_] =>
            Returned This
              (outcomeState
                 (removeChildren host
                    {| children := [HeritageSyntaxList];
                       removePrecedingSpaces := true |} st))
        | _ =>
            match getImplementsHeritageClause (heritageClauses st) with
            | Some c =>
                Returned This
                  (outcomeState
                     (removeChildren host
                        {| children := [HeritageClauseRef c];
                           removePrecedingSpaces := true |} st))
            | None => Threw UndefinedNodeError st
            end
        end
    | _ :: _ =>
        Returned This
          (outcomeState
             (removeCommaSeparatedChild host target
                (negb (sameNode target first)) st))
    end.
Proof.
  intros Hnodes Htarget.
  rewrite (removeImplements_cases host st arg first others Hnodes). cbv zeta.
  destruct arg as [index | node]; unfold targetOf in Htarget.
  - destruct (accepted index (Z.of_nat (List.length (first :: others)) - 1))
      eqn:Hacc; [|discriminate].
    destruct (accepted_validIndex _ _ Hacc) as [Hvalid Hres].
    rewrite Hvalid, Hres, Htarget. reflexivity.
  - injection Htarget as ->. reflexivity.
Qed.

(** [removeImplements] raises its errors before any edit: whenever it
    throws, the node is exactly as before the call. *)
Theorem removeImplements_throws_before_editing
    (st : ClassNode) (arg : NodeOrIndex) (e : Error) (st' : ClassNode) :
  removeImplements host arg st = Threw e st' -> st' = st.
Proof.
  destruct (getImplements (heritageClauses st)) as [|first others] eqn:Hnodes.
  - rewrite (removeImplements_none host st arg Hnodes).
    intros H. injection H as _ <-. reflexivity.
  - rewrite (removeImplements_cases host st arg first others Hnodes). cbv zeta.
    assert (Hremove : forall target,
      match others with
      | [] =>
          match heritageClauses st with
          | [_] =>
              Returned This
                (outcomeState
                   (removeChildren host
                      {| children := [HeritageSyntaxList];
                         removePrecedingSpaces := true |} st))
          | _ =>
              match getImplementsHeritageClause (heritageClauses st) with
              | Some c =>
                  Returned This
                    (outcomeState
                       (removeChildren host
                          {| children := [HeritageClauseRef c];
                             removePrecedingSpaces := true |} st))
              | None => Threw UndefinedNodeError st
              end
          end
      | _ :: _ =>
          match target with
          | Some node =>
              Returned This
                (outcomeState
                   (removeCommaSeparatedChild host node
                      (negb (sameNode node first)) st))
          | None => Threw UndefinedNodeError st
          end
      end = Threw e st' -> st' = st).
    { intros target.
      destruct others as [|second rest].
      - destruct (heritageClauses st) as [|c1 [|c2 cs]]; try discriminate;
          destruct (getImplementsHeritageClause _); try discriminate;
          intros H; injection H as _ <-; reflexivity.
      - destruct target; [discriminate|].
        intros H. injection H as _ <-. reflexivity. }
    destruct arg as [index | node].
    + destruct (validIndex index (Z.of_nat (List.length (first :: others)) - 1)).
      * exact (Hremove _).
      * intros H. injection H as _ <-. reflexivity.
    + exact (Hremove (Some node)).
Qed.


(** With exactly one implements type the node handed to [removeImplements]
    is not looked at: any node, also one that is not an implements type of
    this class, makes the call remove the one implements type, as index [0]
    does. *)
Theorem removeImplements_single_ignores_node
    (st : ClassNode) (only : ExpressionWithTypeArguments)
    (node : ExpressionWithTypeArguments) :
  getImplements (heritageClauses st) = [only] ->
  removeImplements host (ByNode node) st = removeImplements host (ByIndex 0) st.
Proof.
  intros Hnodes.
  rewrite (removeImplements_with_target st (ByNode node) node only [] Hnodes eq_refl).
  rewrite (removeImplements_with_target st (ByIndex 0) only only [] Hnodes eq_refl).
  reflexivity.
Qed.





End MoreRemoveImplements.

Section Composition.

Variable host : Host.

Lemma freshNodes_app (next : nat) (l1 l2 : list string) :
  freshNodes next (l1 ++ l2)
  = freshNodes next l1 ++ freshNodes (next + List.length l1) l2.
Proof.
  revert next. induction l1 as [|t l1 IH]; intros next; simpl.
  - rewrite Nat.add_0_r. reflexivity.
  - rewrite IH. replace (S next + List.length l1) with (next + S (List.length l1)) by lia.
    reflexivity.
Qed.


(** [addImplements] with an array on a node that has implements types. *)
Lemma addImplements_array_existing (st : ClassNode) (l : list string) :
  getImplements (heritageClauses st) <> [] ->
  exists result st',
    addImplements host (ManyTexts l) st = Returned result st'
    /\ getImplements (heritageClauses st')
       = getImplements (heritageClauses st) ++ freshNodes (nextId st) l
    /\ nextId st' = nextId st + List.length l.
Proof.
  intros Hne. rewrite addImplements_as_insert, insertImplements_cases.
  destruct l as [|t rest].
  - exists (ManyNodes []), st. simpl. rewrite app_nil_r.
    repeat split; try reflexivity. lia.
  - destruct (insertTexts_existing host st (implementsCount st) (t :: rest)
                (List.length (t :: rest)) Hne (accepted_count st))
      as (Hrun & Hupd & _).
    do 2 eexists. split; [exact Hrun|]. split; [|reflexivity].
    rewrite Hupd. unfold implementsCount. rewrite Nat2Z.id. unfold splice.
    rewrite firstn_all, skipn_all, app_nil_r. reflexivity.
Qed.

(** Adding in two steps gives the implements list of adding at once: on a
    node with implements types, [addImplements(l1)] followed by
    [addImplements(l2)] leaves the same implements nodes as
    [addImplements] of [l1] followed by [l2]. *)
Theorem addImplements_twice (st : ClassNode) (l1 l2 : list string) :
  getImplements (heritageClauses st) <> [] ->
  exists r1 st1 r2 st2 r st12,
    addImplements host (ManyTexts l1) st = Returned r1 st1
    /\ addImplements host (ManyTexts l2) st1 = Returned r2 st2
    /\ addImplements host (ManyTexts (l1 ++ l2)) st = Returned r st12
    /\ getImplements (heritageClauses st2) = getImplements (heritageClauses st12).
Proof.
  intros Hne.
  destruct (addImplements_array_existing st l1 Hne) as (r1 & st1 & Hrun1 & Himpl1 & Hnext1).
  assert (Hne1 : getImplements (heritageClauses st1) <> []).
  { rewrite Himpl1. intros H. apply app_eq_nil in H. destruct H as [H _].
    contradiction. }
  destruct (addImplements_array_existing st1 l2 Hne1) as (r2 & st2 & Hrun2 & Himpl2 & _).
  destruct (addImplements_array_existing st (l1 ++ l2) Hne)
    as (r & st12 & Hrun & Himpl & _).
  exists r1, st1, r2, st2, r, st12. repeat split; try assumption.
  rewrite Himpl2, Himpl1, Himpl, Hnext1, freshNodes_app, app_assoc. reflexivity.
Qed.


End Composition.

Section MoreFill.

Context {Others : Type}.
Variable host : Host.
Variable callBaseFill : @ImplementsClauseableNodeStructure Others -> Action unit.

Lemma addImplements_array_outcome (st : ClassNode) (t : string) (rest : list string) :
  match getImplements (heritageClauses st), openBraceToken st with
  | [], None =>
      addImplements host (ManyTexts (t :: rest)) st = Threw ChildOfKindNotFoundError st
  | _, _ =>
      exists result st', addImplements host (ManyTexts (t :: rest)) st = Returned result st'
  end.
Proof.
  rewrite addImplements_as_insert, insertImplements_cases.
  rewrite (insertTexts_cases_accepted host _ _ _ _ (accepted_count st)). cbv zeta.
  destruct (getImplements (heritageClauses st)) as [|first others].
  - change (0 <? @List.length ExpressionWithTypeArguments []) with false. cbv iota.
    destruct (openBraceToken st); [do 2 eexists|]; reflexivity.
  - change (0 <? List.length (first :: others)) with true. cbv iota.
    do 2 eexists. reflexivity.
Qed.

(** [fill] adds the structure's implements texts after the base [fill], at
    the end of the implements types that the node then has: with a base
    [fill] that returns and leaves at least one implements type, the list
    afterwards is that list followed by one new node per text, and [fill]
    returns the receiver. *)
Theorem fill_appends_implements
    (structure : ImplementsClauseableNodeStructure) (st st1 : ClassNode)
    (texts : list string) :
  callBaseFill structure st = Returned tt st1 ->
  implements structure = Some texts ->
  getImplements (heritageClauses st1) <> [] ->
  exists st2,
    fill host callBaseFill structure st = Returned This st2
    /\ getImplements (heritageClauses st2)
       = getImplements (heritageClauses st1) ++ freshNodes (nextId st1) texts.
Proof.
  intros Hbase Htexts Hne. unfold fill, bind. rewrite Hbase, Htexts.
  destruct texts as [|t rest].
  - exists st1. simpl. rewrite app_nil_r. split; reflexivity.
  - change (0 <? List.length (t :: rest)) with true. cbv iota.
    destruct (addImplements_array_existing host st1 (t :: rest) Hne)
      as (result & st2 & Hrun & Himpl & _).
    rewrite Hrun. exists st2. split; [reflexivity | exact Himpl].
Qed.

(** [fill] checks nothing about the texts.  A failing base [fill] is passed
    on; otherwise [fill] returns the receiver, except that texts to add on
    a node with neither implements types nor an open brace token make it
    throw after the base [fill] has run.  Absent or empty [implements]
    leaves the node as the base [fill] left it. *)
Theorem fill_outcome (structure : ImplementsClauseableNodeStructure) (st : ClassNode) :
  match callBaseFill structure st with
  | Threw e st1 => fill host callBaseFill structure st = Threw e st1
  | Returned _ st1 =>
      match implements structure with
      | Some (_ :: _) =>
          match getImplements (heritageClauses st1), openBraceToken st1 with
          | [], None =>
              fill host callBaseFill structure st = Threw ChildOfKindNotFoundError st1
          | _, _ =>
              exists st2, fill host callBaseFill structure st = Returned This st2
          end
      | _ => fill host callBaseFill structure st = Returned This st1
      end
  end.
Proof.
  unfold fill, bind.
  destruct (callBaseFill structure st) as [[] st1 | e st1]; [|reflexivity].
  destruct (implements structure) as [[|t rest]|]; try reflexivity.
  change (0 <? List.length (t :: rest)) with true. cbv iota.
  pose proof (addImplements_array_outcome st1 t rest) as Hadd.
  destruct (getImplements (heritageClauses st1)) as [|first others].
  - destruct (openBraceToken st1).
    + destruct Hadd as (result & st2 & ->). exists st2. reflexivity.
    + rewrite Hadd. reflexivity.
  - destruct Hadd as (result & st2 & Hadd).
    destruct (openBraceToken st1); rewrite Hadd; exists st2; reflexivity.
Qed.

End MoreFill.

(* ================================================================== *)
(** ** The further properties on concrete nodes *)

(** At [class C implements A {}]: a rejected index and a blank string. *)
Lemma insert_and_add_throw_before_editing_witness :
  insertImplements exampleHost 5 (ManyTexts ["X"]) implementingClass
  = Threw (InvalidIndexError 5 1) implementingClass
  /\ addImplements exampleHost (OneText "") implementingClass
     = Threw (ArgumentNullOrWhitespaceError "texts") implementingClass
  /\ outcomeState (insertImplements exampleHost 5 (ManyTexts ["X"]) implementingClass)
     = implementingClass
  /\ outcomeState (addImplements exampleHost (OneText "") implementingClass)
     = implementingClass.
Proof.
  assert (H1 : insertImplements exampleHost 5 (ManyTexts ["X"]) implementingClass
               = Threw (InvalidIndexError 5 1) implementingClass) by reflexivity.
  assert (H2 : addImplements exampleHost (OneText "") implementingClass
               = Threw (ArgumentNullOrWhitespaceError "texts") implementingClass)
    by reflexivity.
  split; [exact H1|]. split; [exact H2|]. split.
  - rewrite H1 at 1. simpl outcomeState.
    exact (proj1 (insert_and_add_throw_before_editing exampleHost implementingClass
                    5 (ManyTexts ["X"]) _ _) H1).
  - rewrite H2 at 1. simpl outcomeState.
    exact (proj2 (insert_and_add_throw_before_editing exampleHost implementingClass
                    0 (OneText "") _ _) H2).
Defined.

Lemma addImplements_appends_witness :
  getImplements (heritageClauses implementingClass) <> []
  /\ passesStringCheck (OneText "X") = true
  /\ exists st',
       addImplements exampleHost (OneText "X") implementingClass
       = Returned (OneNode (Some {| nodeId := 2; nodeText := "X" |})) st'
       /\ getImplements (heritageClauses st')
          = [typeA; {| nodeId := 2; nodeText := "X" |}].
Proof.
  assert (H1 : getImplements (heritageClauses implementingClass) <> [])
    by discriminate.
  assert (H2 : passesStringCheck (OneText "X") = true) by reflexivity.
  split; [exact H1|]. split; [exact H2|].
  destruct (addImplements_appends exampleHost implementingClass (OneText "X") H1 H2)
    as (st' & Hrun & Himpl & _).
  exists st'. split; [exact Hrun | exact Himpl].
Defined.

Lemma insertImplements_without_open_brace_witness :
  getImplements (heritageClauses bracelessClass) = []
  /\ openBraceToken bracelessClass = None
  /\ passesStringCheck (ManyTexts ["X"]) = true
  /\ textsOf (ManyTexts ["X"]) <> []
  /\ insertImplements exampleHost 0 (ManyTexts ["X"]) bracelessClass
     = Threw ChildOfKindNotFoundError bracelessClass
  /\ insertImplements exampleHost 1 (ManyTexts ["X"]) bracelessClass
     = Threw (InvalidIndexError 1 0) bracelessClass.
Proof.
  assert (H1 : getImplements (heritageClauses bracelessClass) = []) by reflexivity.
  assert (H2 : openBraceToken bracelessClass = None) by reflexivity.
  assert (H3 : passesStringCheck (ManyTexts ["X"]) = true) by reflexivity.
  assert (H4 : textsOf (ManyTexts ["X"]) <> []) by discriminate.
  repeat (split; [assumption|]). split.
  - exact (insertImplements_without_open_brace exampleHost bracelessClass 0
             (ManyTexts ["X"]) H1 H2 H3 H4).
  - exact (insertImplements_without_open_brace exampleHost bracelessClass 1
             (ManyTexts ["X"]) H1 H2 H3 H4).
Defined.

Lemma removeImplements_throws_before_editing_witness :
  removeImplements exampleHost (ByIndex 3) implementingClass
  = Threw (InvalidIndexError 3 0) implementingClass
  /\ outcomeState (removeImplements exampleHost (ByIndex 3) implementingClass)
     = implementingClass.
Proof.
  assert (H : removeImplements exampleHost (ByIndex 3) implementingClass
              = Threw (InvalidIndexError 3 0) implementingClass) by reflexivity.
  split; [exact H|]. rewrite H at 1. simpl outcomeState.
  exact (removeImplements_throws_before_editing exampleHost implementingClass
           (ByIndex 3) _ _ H).
Defined.


Lemma removeImplements_single_ignores_node_witness :
  getImplements (heritageClauses extendingImplementingClass) = [typeA]
  /\ removeImplements exampleHost (ByNode typeBase) extendingImplementingClass
     = removeImplements exampleHost (ByIndex 0) extendingImplementingClass.
Proof.
  assert (H : getImplements (heritageClauses extendingImplementingClass) = [typeA])
    by reflexivity.
  split; [exact H|].
  exact (removeImplements_single_ignores_node exampleHost extendingImplementingClass
           typeA typeBase H).
Defined.


Lemma addImplements_twice_witness :
  getImplements (heritageClauses implementingClass) <> []
  /\ exists r1 st1 r2 st2 r st12,
       addImplements exampleHost (ManyTexts ["X"]) implementingClass = Returned r1 st1
       /\ addImplements exampleHost (ManyTexts ["Y"; "Z"]) st1 = Returned r2 st2
       /\ addImplements exampleHost (ManyTexts ["X"; "Y"; "Z"]) implementingClass
          = Returned r st12
       /\ getImplements (heritageClauses st2) = getImplements (heritageClauses st12).
Proof.
  assert (H : getImplements (heritageClauses implementingClass) <> []) by discriminate.
  split; [exact H|].
  exact (addImplements_twice exampleHost implementingClass ["X"] ["Y"; "Z"] H).
Defined.


Lemma fill_appends_implements_witness :
  emptyBaseFill {| implements := Some ["X"; "Y"]; others := tt |} implementingClass
  = Returned tt implementingClass
  /\ getImplements (heritageClauses implementingClass) <> []
  /\ exists st2,
       fill exampleHost emptyBaseFill
         {| implements := Some ["X"; "Y"]; others := tt |} implementingClass
       = Returned This st2
       /\ getImplements (heritageClauses st2)
          = [typeA; {| nodeId := 2; nodeText := "X" |};
             {| nodeId := 3; nodeText := "Y" |}].
Proof.
  assert (H1 : emptyBaseFill {| implements := Some ["X"; "Y"]; others := tt |}
                 implementingClass = Returned tt implementingClass) by reflexivity.
  assert (H2 : getImplements (heritageClauses implementingClass) <> [])
    by discriminate.
  split; [exact H1|]. split; [exact H2|].
  exact (fill_appends_implements exampleHost emptyBaseFill _ _ _ ["X"; "Y"]
           H1 eq_refl H2).
Defined.
